(** * TPMS BLE frame parser: a shallow embedding of
      [custom_components/tpms_ble/tpms_parser/parser.py]

    The development has three layers.

    - [Py]: the Python built-ins the parser calls ([bytes.decode], [str]
      indexing and slicing, [startswith]/[endswith], [int(s, 16)], [str(n)]),
      with exceptions as an explicit [result] type.
    - The class [TPMSBluetoothDeviceData]: its two attributes and the calls it
      makes on the host base class and on the BLE transport are kept in a
      [session] record; methods are computations in a small state-and-exception
      monad [M].
    - The properties: [byte2flag] against shift-and-mask, the literal grammar
      of [int], the frame decoder, the notification handler, and the
      characteristics and handshake of the session; then what advertisements
      and notifications do beyond that, from single calls to whole
      sessions. *)

From Stdlib Require Import String Ascii Bool ZArith QArith Lia List.
From Stdlib.Strings Require Import Byte.
From Stdlib Require Import DecimalString.
Import ListNotations.

Local Open Scope Z_scope.
Local Open Scope list_scope.

(* ===================================================================== *)
(** ** Python values, exceptions *)
(* ===================================================================== *)

Module Py.

(** A [str] is the sequence of its code points, [bytes] a sequence of
    octets. *)
Definition str := list Z.
Definition bytes := list byte.

Definition ord (c : ascii) : Z := Z.of_N (N_of_ascii c).

(** [text "..."] is the [str] of an ASCII literal. *)
Fixpoint text (s : string) : str :=
  match s with
  | EmptyString => []
  | String c s' => ord c :: text s'
  end.

Fixpoint str_eqb (a b : str) : bool :=
  match a, b with
  | [], [] => true
  | x :: a', y :: b' => (x =? y) && str_eqb a' b'
  | _, _ => false
  end.

(** The exceptions that the modelled code can meet. All of them derive from
    [Exception], so a clause [except Exception] catches each one. *)
Inductive exn : Type :=
| UnicodeDecodeError
| ValueError
| IndexError
| UnboundLocalError
| AttributeError.

Inductive result (A : Type) : Type :=
| Ok (a : A)
| Raise (e : exn).
Arguments Ok {A} a.
Arguments Raise {A} e.

Definition rbind {A B} (r : result A) (k : A -> result B) : result B :=
  match r with
  | Ok a => k a
  | Raise e => Raise e
  end.

(** A number as the parser produces it: [int], or the [float] that
    [int + 0.5] gives. The sums met here are far inside the range where
    binary floating point is exact, so a rational carries the value. *)
Inductive num : Type :=
| PyInt (n : Z)
| PyFloat (x : Q).

Definition num_value (v : num) : Q :=
  match v with
  | PyInt n => inject_Z n
  | PyFloat x => x
  end.

(** [n + x] for an int [n] and a float [x]. *)
Definition add_float (n : Z) (x : Q) : num := PyFloat (inject_Z n + x)%Q.

(* --------------------------------------------------------------------- *)
(** *** [bytes.decode("utf-8")], strict *)

Definition byte_val (b : byte) : Z := Z.of_N (Byte.to_N b).

Definition between (lo hi x : Z) : bool := (lo <=? x) && (x <=? hi).

Definition is_cont (b : Z) : bool := between 128 191 b.

Fixpoint utf8_decode (data : list Z) : result str :=
  match data with
  | [] => Ok []
  | b0 :: r0 =>
    if b0 <? 128 then
      rbind (utf8_decode r0) (fun s => Ok (b0 :: s))
    else if between 194 223 b0 then
      match r0 with
      | b1 :: r1 =>
        if is_cont b1 then
          rbind (utf8_decode r1)
                (fun s => Ok ((b0 - 192) * 64 + (b1 - 128) :: s))
        else Raise UnicodeDecodeError
      | _ => Raise UnicodeDecodeError
      end
    else if between 224 239 b0 then
      match r0 with
      | b1 :: b2 :: r2 =>
        let lo := if b0 =? 224 then 160 else 128 in
        let hi := if b0 =? 237 then 159 else 191 in
        if between lo hi b1 && is_cont b2 then
          rbind (utf8_decode r2)
                (fun s => Ok ((b0 - 224) * 4096 + (b1 - 128) * 64
                              + (b2 - 128) :: s))
        else Raise UnicodeDecodeError
      | _ => Raise UnicodeDecodeError
      end
    else if between 240 244 b0 then
      match r0 with
      | b1 :: b2 :: b3 :: r3 =>
        let lo := if b0 =? 240 then 144 else 128 in
        let hi := if b0 =? 244 then 143 else 191 in
        if between lo hi b1 && is_cont b2 && is_cont b3 then
          rbind (utf8_decode r3)
                (fun s => Ok ((b0 - 240) * 262144 + (b1 - 128) * 4096
                              + (b2 - 128) * 64 + (b3 - 128) :: s))
        else Raise UnicodeDecodeError
      | _ => Raise UnicodeDecodeError
      end
    else Raise UnicodeDecodeError
  end.

Definition decode_utf8 (data : bytes) : result str :=
  utf8_decode (map byte_val data).

(* --------------------------------------------------------------------- *)
(** *** Indexing, slicing, prefix and suffix tests *)

(** [s[i]] for [i >= 0]: a one-character [str], or [IndexError]. *)
Definition getitem (s : str) (i : nat) : result str :=
  match nth_error s i with
  | Some c => Ok [c]
  | None => Raise IndexError
  end.

(** [s[lo:hi]] for [0 <= lo <= hi]; a slice never raises. *)
Definition slice (s : str) (lo hi : nat) : str :=
  firstn (hi - lo) (skipn lo s).

Definition startswith (s prefix : str) : bool :=
  str_eqb (firstn (length prefix) s) prefix.

Definition endswith (s suffix : str) : bool :=
  (length suffix <=? length s)%nat
  && str_eqb (skipn (length s - length suffix) s) suffix.

(* --------------------------------------------------------------------- *)
(** *** [int(s, 16)]

    CPython first maps the text to ASCII
    ([_PyUnicode_TransformDecimalAndSpaceToASCII]): a code point below 127
    stays, any other Unicode white space becomes a blank, any other Unicode
    decimal digit becomes the ASCII digit of its value, and the first code
    point that is neither ends the text with a question mark. The two Unicode
    character-database look-ups are not part of the repository: they are the
    fields of [UnicodeData]; every result below holds for all such
    look-ups. *)

Class UnicodeData : Type := {
  Py_UNICODE_ISSPACE : Z -> bool;
  (** the decimal value of the code point, negative when it has none *)
  Py_UNICODE_TODECIMAL : Z -> Z;
  (** DEL is the one ASCII code point that is looked up: a control
      character, neither white space nor a digit. *)
  DEL_not_space : Py_UNICODE_ISSPACE 127 = false;
  DEL_not_decimal : Py_UNICODE_TODECIMAL 127 < 0
}.

(** The look-ups cut down to the Latin-1 range, where NEL and NBSP are the
    white space above DEL and no code point is a decimal digit. It serves to
    run the decoder on ASCII frames, for which the look-ups are never
    consulted. *)
#[export] Instance ucd_latin1 : UnicodeData := {|
  Py_UNICODE_ISSPACE := fun c => (c =? 133) || (c =? 160);
  Py_UNICODE_TODECIMAL := fun _ => -1;
  DEL_not_space := eq_refl;
  DEL_not_decimal := eq_refl
|}.

Section Int.
Context {ucd : UnicodeData}.

Fixpoint transform_decimal_and_space_to_ascii (s : str) : list Z :=
  match s with
  | [] => []
  | ch :: s' =>
    if ch <? 127 then ch :: transform_decimal_and_space_to_ascii s'
    else if Py_UNICODE_ISSPACE ch then
      32 :: transform_decimal_and_space_to_ascii s'
    else
      let decimal := Py_UNICODE_TODECIMAL ch in
      if decimal <? 0 then [63]
      else (48 + decimal) :: transform_decimal_and_space_to_ascii s'
  end.

(** The C-locale white space of [Py_ISSPACE]: blank, and tab to carriage
    return. *)
Definition Py_ISSPACE (c : Z) : bool := (c =? 32) || between 9 13 c.

(** [_PyLong_DigitValue]: 0-9, then a-z and A-Z as 10-35, and 37 for
    everything else. *)
Definition _PyLong_DigitValue (c : Z) : Z :=
  if between 48 57 c then c - 48
  else if between 97 122 c then c - 87
  else if between 65 90 c then c - 55
  else 37.

(** What a character can be to the base-16 literal grammar. *)
Inductive token : Type :=
| TSpace
| TPlus
| TMinus
| TUnderscore
| TX                (* x or X *)
| TDigit (d : Z)    (* a digit of value d < 16 *)
| TOther.

Definition token_of (c : Z) : token :=
  if Py_ISSPACE c then TSpace
  else if c =? 43 then TPlus
  else if c =? 45 then TMinus
  else if c =? 95 then TUnderscore
  else if (c =? 120) || (c =? 88) then TX
  else
    let d := _PyLong_DigitValue c in
    if d <? 16 then TDigit d else TOther.

Fixpoint skip_spaces (l : list token) : list token :=
  match l with
  | TSpace :: l' => skip_spaces l'
  | _ => l
  end.

(** The digit scan of [long_from_binary_base]: digits and single underscores
    between them; [None] is its syntax error (two underscores in a row, or a
    trailing one). It returns the value, the number of digits and the rest of
    the text. *)
Fixpoint scan_digits (l : list token) (prev_underscore : bool) (acc : Z)
         (digits : nat) : option (Z * nat * list token) :=
  match l with
  | TDigit d :: l' => scan_digits l' false (acc * 16 + d) (S digits)
  | TUnderscore :: l' =>
    if prev_underscore then None else scan_digits l' true acc digits
  | _ => if prev_underscore then None else Some (acc, digits, l)
  end.

(** An optional sign. *)
Definition strip_sign (l : list token) : Z * list token :=
  match l with
  | TPlus :: l' => (1, l')
  | TMinus :: l' => (-1, l')
  | _ => (1, l)
  end.

(** An optional [0x] or [0X], which one underscore may follow. *)
Definition strip_prefix (l : list token) : list token :=
  match l with
  | TDigit Z0 :: TX :: TUnderscore :: l' => l'
  | TDigit Z0 :: TX :: l' => l'
  | _ => l
  end.

(** The digits: at least one, no underscore in front, and only white space
    behind. *)
Definition parse_digits (sign : Z) (l : list token) : result Z :=
  match l with
  | TUnderscore :: _ => Raise ValueError
  | _ =>
    match scan_digits l false 0 0 with
    | None => Raise ValueError
    | Some (_, O, _) => Raise ValueError
    | Some (z, S _, rest) =>
      match skip_spaces rest with
      | [] => Ok (sign * z)
      | _ => Raise ValueError
      end
    end
  end.

(** [PyLong_FromString] with base 16: white space, the sign, the prefix, the
    digits, white space, and nothing more. *)
Definition long_from_tokens (l : list token) : result Z :=
  let '(sign, l) := strip_sign (skip_spaces l) in
  parse_digits sign (strip_prefix l).

(** What one character of the text is to the grammar, after the mapping to
    ASCII. *)
Definition char_token (ch : Z) : token :=
  if ch <? 127 then token_of ch
  else if Py_UNICODE_ISSPACE ch then TSpace
  else
    let decimal := Py_UNICODE_TODECIMAL ch in
    if decimal <? 0 then TOther else token_of (48 + decimal).

Definition int16 (s : str) : result Z :=
  long_from_tokens (map token_of (transform_decimal_and_space_to_ascii s)).

End Int.

(* --------------------------------------------------------------------- *)
(** *** [str(n)] for an int, as an f-string formats it *)

Definition str_of_int (n : Z) : str :=
  text (NilZero.string_of_int (Z.to_int n)).

End Py.

Import Py.

Notation "'let*' x ':=' r 'in' k" :=
  (rbind r (fun x => k))
  (at level 10, x name, r at level 100, k at level 200).

(* ===================================================================== *)
(** ** The host and the transport, as the class sees them *)
(* ===================================================================== *)

(** A [BluetoothCharacteristic]: the parser reads its [uuid] and calls
    [start_notify] and [write_value] on it. *)
Record characteristic : Type := {
  uuid : str;
  handle : Z
}.

(** A [BluetoothServiceInfo], with the three attributes [_start_update]
    reads. *)
Record service_info : Type := {
  name : str;
  service_uuids : list str;
  characteristics : list characteristic
}.

Inductive native_value : Type :=
| Number (v : num)
| Datetime (t : Z).

(** Every call that leaves the class: the logger, the setters of the
    [BluetoothData] base class, [asyncio.sleep] and the two transport calls.
    They are recorded in order; none of them is assumed to fail. *)
Inductive event : Type :=
| Log_debug (msg : str)
| Log_warning (msg : str) (e : exn)
| Set_device_manufacturer (v : str)
| Set_device_name (v : str)
| Set_device_type (v : str)
| Set_title (v : str)
| Update_sensor (key : str) (native_unit_of_measurement : option str)
                (value : native_value) (sensor_name : str)
| Sleep (seconds : Q)
| Start_notify (c : characteristic)
| Write_value (c : characteristic) (payload : Py.bytes) (response : bool).

(** The instance: the two attributes of [__init__], and what it has done so
    far. *)
Record session : Type := {
  notify_char : option characteristic;
  write_char : option characteristic;
  trace : list event
}.

(** [__init__] *)
Definition __init__ : session :=
  {| notify_char := None; write_char := None; trace := [] |}.

(* --------------------------------------------------------------------- *)
(** *** Methods run in [M]: the instance is threaded through, and an
        exception leaves with the instance as it stands. *)

Definition M (A : Type) : Type := session -> result A * session.

Definition ret {A} (a : A) : M A := fun self => (Ok a, self).

Definition bind {A B} (m : M A) (k : A -> M B) : M B :=
  fun self =>
    match m self with
    | (Ok a, self') => k a self'
    | (Raise e, self') => (Raise e, self')
    end.

Definition lift {A} (r : result A) : M A := fun self => (r, self).

(** [try: body except Exception as e: handler e] *)
Definition try_except {A} (body : M A) (handler : exn -> M A) : M A :=
  fun self =>
    match body self with
    | (Ok a, self') => (Ok a, self')
    | (Raise e, self') => handler e self'
    end.

(** The instance after some more calls have left it. *)
Definition recording (self : session) (calls : list event) : session :=
  {| notify_char := notify_char self;
     write_char := write_char self;
     trace := trace self ++ calls |}.

Definition emit (e : event) : M unit :=
  fun self => (Ok tt, recording self [e]).

Definition get_notify_char : M (option characteristic) :=
  fun self => (Ok (notify_char self), self).

Definition get_write_char : M (option characteristic) :=
  fun self => (Ok (write_char self), self).

Definition set_notify_char (c : characteristic) : M unit :=
  fun self =>
    (Ok tt, {| notify_char := Some c;
               write_char := write_char self;
               trace := trace self |}).

Definition set_write_char (c : characteristic) : M unit :=
  fun self =>
    (Ok tt, {| notify_char := notify_char self;
               write_char := Some c;
               trace := trace self |}).

Notation "x <- m ;; k" := (bind m (fun x => k))
  (at level 61, m at next level, right associativity).
Notation "m ;; k" := (bind m (fun _ => k))
  (at level 61, right associativity).

(* ===================================================================== *)
(** ** [class TPMSBluetoothDeviceData] *)
(* ===================================================================== *)

Definition PRESSURE : str := text "pressure".
Definition TEMPERATURE : str := text "temperature".
Definition BATTERY : str := text "battery".
Definition TIMESTAMP : str := text "timestamp".
Definition ALARM : str := text "alarm".

Definition TARGET_NAMES : list str :=
  [text "TYREDOG"; text "JDY-08"; text "Realtek"; text "RB8762"].
Definition SERVICE_UUID : str :=
  text "6E400001-B5A3-F393-E0A9-E50E24DCCA9E".
Definition WRITE_CHARACTERISTIC_UUID : str :=
  text "6E400002-B5A3-F393-E0A9-E50E24DCCA9E".
Definition NOTIFY_CHARACTERISTIC_UUID : str :=
  text "6E400003-B5A3-F393-E0A9-E50E24DCCA9E".

(** [x in l] for a list of [str]. *)
Definition str_in (x : str) (l : list str) : bool := existsb (str_eqb x) l.

(** The dict that [_handle_16_byte_data] returns. *)
Record parsed : Type := {
  pressure : num;
  temperature : Z;
  battery : Z;
  sensor_no : Z
}.

(* --------------------------------------------------------------------- *)
(** *** [byte2flag] *)

(** The loop [for _ in range(n)]: [val] is unbound until the first pass. *)
Fixpoint byte2flag_loop (n : nat) (val : option Z) (byte0 : Z)
  : option Z * Z :=
  match n with
  | O => (val, byte0)
  | S n' => byte2flag_loop n' (Some (byte0 mod 2)) (byte0 / 2)
  end.

Definition byte2flag (byte1 byte0 bit : Z) : result bool :=
  let byte0 := (byte1 * 16) + byte0 in
  match fst (byte2flag_loop (Z.to_nat (bit + 1)) None byte0) with
  | Some val => Ok (val =? 1)
  | None => Raise UnboundLocalError
  end.

(** The reading of the same bit that the specification words as
    [(flags >> b) & 1 == 1]. *)
Definition shift_mask_bit (flags b : Z) : bool :=
  Z.land (Z.shiftr flags b) 1 =? 1.

(* --------------------------------------------------------------------- *)
(** *** [_handle_16_byte_data] *)

Section Decoder.
Context {ucd : UnicodeData}.

(** The body of the [try]. [Ok None] is the [return None] of the freshness
    test. *)
Definition parse_fields (data : str) : result (option parsed) :=
  let* c6 := getitem data 6 in
  let* n6 := int16 c6 in
  let sensor_no := n6 + 1 in
  let* c7 := getitem data 7 in
  let* flag_hi := int16 c7 in
  let* c8 := getitem data 8 in
  let* flag_lo := int16 c8 in
  let* battery_low := byte2flag flag_hi flag_lo 1 in
  let* rx_data_fresh := byte2flag flag_hi flag_lo 7 in
  let* half_point := byte2flag flag_hi flag_lo 0 in
  if negb rx_data_fresh then Ok None
  else
    let* c11 := getitem data 11 in
    let pressure_hex := slice data 9 11 ++ c11 in
    let temp_hex := slice data 11 13 in
    let* pressure := int16 pressure_hex in
    let pressure :=
      if half_point then add_float pressure (1 # 2) else PyInt pressure in
    let* t := int16 temp_hex in
    let temperature := t - 40 in
    Ok (Some {| pressure := pressure;
                temperature := temperature;
                battery := if battery_low then 20 else 100;
                sensor_no := sensor_no |}).

Definition _handle_16_byte_data (data : str) : M (option parsed) :=
  if negb (startswith data (text "$A0")) || negb (endswith data (text "#"))
  then ret None
  else
    try_except (lift (parse_fields data))
      (fun e =>
         emit (Log_warning (text "Error parsing 16-byte data: %s") e) ;;
         ret None).

(* --------------------------------------------------------------------- *)
(** *** [_update_sensors] *)

(** The unit of the temperature sensor, as the source file spells it. *)
Definition temperature_unit : str := [194; 176; 67].

(** [now] is the value of [datetime.now().astimezone()] at the call. *)
Definition _update_sensors (now : Z) (p : parsed) : M unit :=
  let name := text "TPMS Sensor " ++ str_of_int (sensor_no p) in
  emit (Set_device_type name) ;;
  emit (Set_title name) ;;
  emit (Update_sensor PRESSURE (Some (text "psi"))
                      (Number (pressure p)) (text "Pressure")) ;;
  emit (Update_sensor TEMPERATURE (Some temperature_unit)
                      (Number (PyInt (temperature p))) (text "Temperature")) ;;
  emit (Update_sensor BATTERY (Some (text "%"))
                      (Number (PyInt (battery p))) (text "Battery")) ;;
  emit (Update_sensor TIMESTAMP None (Datetime now) (text "Last Update")).

(* --------------------------------------------------------------------- *)
(** *** [_on_data_received] *)

Definition _on_data_received (now : Z) (data : Py.bytes) : M unit :=
  decoded <-
    try_except
      (data_str <- lift (decode_utf8 data) ;; ret (Some data_str))
      (fun e =>
         emit (Log_warning (text "Failed to decode: %s") e) ;;
         ret None) ;;
  match decoded with
  | None => ret tt                                  (* the early return *)
  | Some data_str =>
    if (length data_str =? 16)%nat then
      parsed <- _handle_16_byte_data data_str ;;
      match parsed with
      | Some p => _update_sensors now p  (* a dict of four keys is true *)
      | None => ret tt
      end
    else ret tt
  end.

End Decoder.

(* --------------------------------------------------------------------- *)
(** *** [_enable_notifications_and_send_command] and [_start_update] *)

Definition command : Py.bytes :=
  list_byte_of_string "$A0240138#".

Definition _enable_notifications_and_send_command : M unit :=
  emit (Sleep (1 # 10)) ;;
  n <- get_notify_char ;;
  match n with
  | None => lift (Raise AttributeError)
  | Some nc =>
    emit (Start_notify nc) ;;
    w <- get_write_char ;;
    match w with
    | None => lift (Raise AttributeError)
    | Some wc =>
      emit (Write_value wc command false) ;;
      emit (Sleep (3 # 10))
    end
  end.

(** The [for char in service_info.characteristics] loop. *)
Fixpoint record_characteristics (chars : list characteristic) : M unit :=
  match chars with
  | [] => ret tt
  | char :: chars' =>
    (if str_eqb (uuid char) NOTIFY_CHARACTERISTIC_UUID then
       set_notify_char char
     else if str_eqb (uuid char) WRITE_CHARACTERISTIC_UUID then
       set_write_char char
     else ret tt) ;;
    record_characteristics chars'
  end.

(** An object without [__bool__] or [__len__] is true, [None] is false. *)
Definition truthy {A} (o : option A) : bool :=
  match o with
  | Some _ => true
  | None => false
  end.

Definition _start_update (info : service_info) : M unit :=
  emit (Log_debug (text "Parsing TPMS UART BLE advertisement: %s")) ;;
  if negb (str_in (name info) TARGET_NAMES) then ret tt
  else if negb (str_in SERVICE_UUID (service_uuids info)) then ret tt
  else
    emit (Set_device_manufacturer (text "TPMS")) ;;
    emit (Set_device_name (name info)) ;;
    emit (Set_title (name info)) ;;
    record_characteristics (characteristics info) ;;
    n <- get_notify_char ;;
    w <- get_write_char ;;
    if truthy n && truthy w then _enable_notifications_and_send_command
    else ret tt.

(** The host hands the advertisements of one session to [_start_update] one
    after the other, each call awaited to its end. *)
Fixpoint process (ads : list service_info) : M unit :=
  match ads with
  | [] => ret tt
  | info :: ads' => _start_update info ;; process ads'
  end.

(* ===================================================================== *)
(** ** Vocabulary of the specification *)
(* ===================================================================== *)

(** The value of an ASCII hexadecimal digit. *)
Definition hex_value (c : Z) : option Z :=
  if between 48 57 c then Some (c - 48)
  else if between 97 102 c then Some (c - 87)
  else if between 65 70 c then Some (c - 55)
  else None.

(** The value of the hex digit at a position of the frame, if there is one. *)
Definition hex_at (data : str) (i : nat) : option Z :=
  match nth_error data i with
  | Some c => hex_value c
  | None => None
  end.

(** The ASCII characters, other than digits, that a base-16 literal of [int]
    may contain: white space, the signs, the underscore, and the x of the
    prefix. *)
Definition literal_char (c : Z) : bool :=
  Py_ISSPACE c || (c =? 43) || (c =? 45) || (c =? 95)
  || (c =? 120) || (c =? 88).

Definition has_prefix (p s : str) : Prop := exists rest, s = p ++ rest.
Definition has_suffix (p s : str) : Prop := exists init, s = init ++ p.

(** The positions of a frame that carry a field: prefix, sensor, flags,
    pressure, temperature, suffix. *)
Definition field_positions : list nat :=
  [0; 1; 2; 6; 7; 8; 9; 10; 11; 12; 15]%nat.

(** The sensor updates among the recorded calls: the readings published. *)
Definition is_update (e : event) : bool :=
  match e with
  | Update_sensor _ _ _ _ => true
  | _ => false
  end.

Definition published (t : list event) : list event := filter is_update t.

(** One run of the handshake leaves exactly these four calls. *)
Definition handshake (nc wc : characteristic) : list event :=
  [Sleep (1 # 10); Start_notify nc; Write_value wc command false;
   Sleep (3 # 10)].

(** The calls of one [_update_sensors]. *)
Definition update_calls (now : Z) (p : parsed) : list event :=
  let name := text "TPMS Sensor " ++ str_of_int (sensor_no p) in
  [Set_device_type name;
   Set_title name;
   Update_sensor PRESSURE (Some (text "psi"))
                 (Number (pressure p)) (text "Pressure");
   Update_sensor TEMPERATURE (Some temperature_unit)
                 (Number (PyInt (temperature p))) (text "Temperature");
   Update_sensor BATTERY (Some (text "%"))
                 (Number (PyInt (battery p))) (text "Battery");
   Update_sensor TIMESTAMP None (Datetime now) (text "Last Update")].

(** The calls that open [_start_update] on a matching advertisement. *)
Definition metadata_calls (info : service_info) : list event :=
  [Set_device_manufacturer (text "TPMS");
   Set_device_name (name info);
   Set_title (name info)].

Definition debug_call : event :=
  Log_debug (text "Parsing TPMS UART BLE advertisement: %s").

(** An advertisement that matches and carries both characteristics. *)
Definition tyredog : service_info :=
  {| name := text "TYREDOG";
     service_uuids := [SERVICE_UUID];
     characteristics :=
       [{| uuid := NOTIFY_CHARACTERISTIC_UUID; handle := 11 |};
        {| uuid := WRITE_CHARACTERISTIC_UUID; handle := 13 |}] |}.

Definition is_start_notify (e : event) : bool :=
  match e with
  | Start_notify _ => true
  | _ => false
  end.

(** How many times the handshake has run: each run subscribes once. *)
Definition handshakes (t : list event) : nat :=
  length (filter is_start_notify t).

(** The advertisement passes the name and service tests. *)
Definition matches (info : service_info) : bool :=
  str_in (name info) TARGET_NAMES && str_in SERVICE_UUID (service_uuids info).

Definition complete (self : session) : bool :=
  truthy (notify_char self) && truthy (write_char self).

(** The ranges of a reading. *)
Definition half_steps (v : num) : Prop :=
  exists k : Z, (num_value v * 2 == inject_Z k)%Q.

(** Every token, for the case analyses on short literals. *)
Definition all_tokens : list token :=
  [TSpace; TPlus; TMinus; TUnderscore; TX; TOther]
  ++ map TDigit [0; 1; 2; 3; 4; 5; 6; 7; 8; 9; 10; 11; 12; 13; 14; 15].

Definition is_minus (t : token) : bool :=
  match t with
  | TMinus => true
  | _ => false
  end.

Definition is_digit (t : token) : bool :=
  match t with
  | TDigit _ => true
  | _ => false
  end.

Definition digit_or_space (t : token) : bool :=
  match t with
  | TDigit _ | TSpace => true
  | _ => false
  end.

(** What a literal of one, two or three characters can be worth. *)
Definition literal1_ok (a : token) : bool :=
  match long_from_tokens [a] with
  | Ok v => is_digit a && (0 <=? v) && (v <=? 15)
  | Raise _ => negb (is_digit a)
  end.

Definition literal2_ok (a b : token) : bool :=
  match long_from_tokens [a; b] with
  | Ok v => negb (digit_or_space a) || ((0 <=? v) && (v <=? 255))
  | Raise _ => true
  end.

Definition literal3_ok (a b c : token) : bool :=
  match long_from_tokens [a; b; c] with
  | Ok v =>
    (-255 <=? v) && (v <=? 4095)
    && ((0 <=? v) || is_minus a || is_minus b)
    && digit_or_space c
  | Raise _ => true
  end.

(** The last characteristic of a list that carries a UUID, if there is
    one. *)
Fixpoint last_with (u : str) (chars : list characteristic)
  : option characteristic :=
  match chars with
  | [] => None
  | c :: chars' =>
    match last_with u chars' with
    | Some c' => Some c'
    | None => if str_eqb (uuid c) u then Some c else None
    end
  end.

(** The first option if it holds a value, else the second. *)
Definition or_else {A} (o d : option A) : option A :=
  match o with
  | Some _ => o
  | None => d
  end.

(** The handshake calls for a pair of attributes, none unless both are
    set. *)
Definition handshake_if_complete (n w : option characteristic)
  : list event :=
  match n, w with
  | Some nc, Some wc => handshake nc wc
  | _, _ => []
  end.

(** What the host delivers to an instance: advertisements and
    notifications, in any order. *)
Inductive input : Type :=
| Advertisement (info : service_info)
| Notification (now : Z) (data : Py.bytes).

Fixpoint dispatch {ucd : UnicodeData} (inputs : list input) : M unit :=
  match inputs with
  | [] => ret tt
  | Advertisement info :: inputs' => _start_update info ;; dispatch inputs'
  | Notification now data :: inputs' =>
    _on_data_received now data ;; dispatch inputs'
  end.

(** A transport call goes where it should: a subscription to a
    characteristic with the notify UUID, a write of the command, without
    response, to one with the write UUID. *)
Definition well_addressed (e : event) : Prop :=
  match e with
  | Start_notify c => uuid c = NOTIFY_CHARACTERISTIC_UUID
  | Write_value c payload response =>
    uuid c = WRITE_CHARACTERISTIC_UUID
    /\ payload = command /\ response = false
  | _ => True
  end.

Definition is_warning (e : event) : bool :=
  match e with
  | Log_warning _ _ => true
  | _ => false
  end.

Definition is_transport (e : event) : bool :=
  match e with
  | Sleep _ | Start_notify _ | Write_value _ _ _ => true
  | _ => false
  end.

(** What one notification adds to the recorded calls depends on the bytes
    and the clock alone. *)
Definition notification_calls {ucd : UnicodeData} (now : Z)
           (data : Py.bytes) : list event :=
  match decode_utf8 data with
  | Raise e => [Log_warning (text "Failed to decode: %s") e]
  | Ok data_str =>
    if (length data_str =? 16)%nat then
      if negb (startswith data_str (text "$A0"))
         || negb (endswith data_str (text "#"))
      then []
      else
        match parse_fields data_str with
        | Ok (Some p) => update_calls now p
        | Ok None => []
        | Raise e => [Log_warning (text "Error parsing 16-byte data: %s") e]
        end
    else []
  end.

(** The number of bytes that UTF-8 spends on a code point, and on a text. *)
Definition utf8_width (c : Z) : nat :=
  if c <? 128 then 1
  else if c <? 2048 then 2
  else if c <? 65536 then 3
  else 4.

Fixpoint utf8_length (s : str) : nat :=
  match s with
  | [] => 0
  | c :: s' => utf8_width c + utf8_length s'
  end.

(** The attributes hold characteristics of the right UUIDs, and every
    transport call made so far went where it should. *)
Definition session_ok (self : session) : Prop :=
  (forall c, notify_char self = Some c ->
             uuid c = NOTIFY_CHARACTERISTIC_UUID)
  /\ (forall c, write_char self = Some c ->
                uuid c = WRITE_CHARACTERISTIC_UUID)
  /\ Forall well_addressed (trace self).

(** Look-ups that know, above the Latin-1 range, the Arabic-Indic digits
    U+0660 to U+0669, which are decimal digits of the values 0 to 9. *)
Definition ucd_arabic_indic : UnicodeData :=
  {| Py_UNICODE_ISSPACE := fun c => (c =? 133) || (c =? 160);
     Py_UNICODE_TODECIMAL :=
       fun c => if between 1632 1641 c then c - 1632 else -1;
     DEL_not_space := eq_refl;
     DEL_not_decimal := eq_refl |}.

(** The character is a digit to [int(.., 16)]: an ASCII hex digit, or a
    Unicode decimal digit. *)
Definition digit_to_int {ucd : UnicodeData} (c : Z) : bool :=
  is_digit (char_token c).

(** The characters that are no digits and that [int(.., 16)] all the same
    lets stand at a position of the frame: white space anywhere in the
    pressure and temperature fields (positions 9 to 12), a sign at the head
    of the pressure field (position 9, or 10 behind white space), an
    underscore between two digits of the pressure field and the x of a
    prefix (position 10). *)
Definition tolerated_at {ucd : UnicodeData} (i : nat) (c : Z) : bool :=
  match char_token c with
  | TSpace => (9 <=? i)%nat && (i <=? 12)%nat
  | TPlus | TMinus => (i =? 9)%nat || (i =? 10)%nat
  | TUnderscore | TX => (i =? 10)%nat
  | _ => false
  end.

(** The head of a literal of three characters, and the tail of one of two. *)
Definition literal_head (t : token) : bool :=
  match t with
  | TDigit _ | TSpace | TPlus | TMinus => true
  | _ => false
  end.

Definition literal3_head_ok (a b c : token) : bool :=
  match long_from_tokens [a; b; c] with
  | Ok _ => literal_head a
  | Raise _ => true
  end.

Definition literal2_tail_ok (a b : token) : bool :=
  match long_from_tokens [a; b] with
  | Ok _ => digit_or_space b
  | Raise _ => true
  end.


(* ===================================================================== *)
(** ** Proof steps that recur *)
(* ===================================================================== *)

(** Peel one [let*] off a successful computation. *)
Ltac rbind_inv H :=
  match type of H with
  | rbind ?r _ = Ok _ =>
    let E := fresh "E" in
    destruct r eqn:E; cbn [rbind] in H; [|discriminate H]
  end.

(** A text of 16 characters, spelled out. *)
Ltac explode16 data Hlen :=
  do 16 (destruct data as [|? data]; [discriminate Hlen|]);
  destruct data; [clear Hlen|discriminate Hlen].

(** Case analysis on the range tests of a character. *)
Ltac split_ranges :=
  repeat match goal with
         | |- context [between ?a ?b ?x] =>
           let E := fresh "E" in
           destruct (between a b x) eqn:E; unfold between in E;
           [apply andb_true_iff in E; rewrite !Z.leb_le in E
           |apply andb_false_iff in E; rewrite !Z.leb_gt in E]
         end.

(* ===================================================================== *)
(** ** [byte2flag] against shift-and-mask *)
(* ===================================================================== *)

Lemma byte2flag_loop_succ (n : nat) :
  forall (val : option Z) (x : Z),
    byte2flag_loop (S n) val x
    = (Some ((x / 2 ^ Z.of_nat n) mod 2), x / 2 ^ Z.of_nat (S n)).
Proof.
  induction n as [|n IH]; intros val x.
  - cbn [byte2flag_loop]. change (2 ^ Z.of_nat 0) with 1.
    change (2 ^ Z.of_nat 1) with 2. now rewrite Z.div_1_r.
  - change (byte2flag_loop (S (S n)) val x)
      with (byte2flag_loop (S n) (Some (x mod 2)) (x / 2)).
    rewrite IH.
    assert (Hp : 0 < 2 ^ Z.of_nat n) by (apply Z.pow_pos_nonneg; lia).
    assert (Hq : 0 < 2 ^ Z.of_nat (S n)) by (apply Z.pow_pos_nonneg; lia).
    rewrite !Z.div_div by lia.
    replace (2 * 2 ^ Z.of_nat n) with (2 ^ Z.of_nat (S n))
      by (rewrite Nat2Z.inj_succ, Z.pow_succ_r; lia).
    replace (2 * 2 ^ Z.of_nat (S n)) with (2 ^ Z.of_nat (S (S n)))
      by (rewrite (Nat2Z.inj_succ (S n)), Z.pow_succ_r; lia).
    reflexivity.
Qed.

Lemma byte2flag_testbit (byte1 byte0 bit : Z) :
  0 <= bit ->
  byte2flag byte1 byte0 bit = Ok (Z.testbit (byte1 * 16 + byte0) bit).
Proof.
  intros Hbit. unfold byte2flag.
  replace (Z.to_nat (bit + 1)) with (S (Z.to_nat bit)) by lia.
  rewrite byte2flag_loop_succ. cbn [fst].
  rewrite Z2Nat.id by assumption.
  rewrite <- Z.testbit_spec' by assumption.
  now destruct (Z.testbit (byte1 * 16 + byte0) bit).
Qed.

Lemma shift_mask_bit_testbit (flags b : Z) :
  0 <= b -> shift_mask_bit flags b = Z.testbit flags b.
Proof.
  intros Hb. unfold shift_mask_bit.
  change 1 with (Z.ones 1) at 1.
  rewrite Z.land_ones by lia.
  rewrite Z.shiftr_div_pow2 by assumption.
  change (2 ^ 1) with 2.
  rewrite <- Z.testbit_spec' by assumption.
  now destruct (Z.testbit flags b).
Qed.

(** C2: on every flags byte [flag_high * 16 + flag_low] built from two hex
    digit values and every bit position 0 to 7, the division loop of
    [byte2flag] returns exactly what shift-and-mask [(flags >> b) & 1 == 1]
    returns. *)
Theorem byte2flag_is_shift_and_mask (flag_high flag_low b : Z) :
  0 <= flag_high <= 15 ->
  0 <= flag_low <= 15 ->
  0 <= b <= 7 ->
  0 <= flag_high * 16 + flag_low <= 255
  /\ byte2flag flag_high flag_low b
     = Ok (shift_mask_bit (flag_high * 16 + flag_low) b).
Proof.
  intros Hh Hl Hb. split; [lia|].
  rewrite byte2flag_testbit, shift_mask_bit_testbit by lia.
  reflexivity.
Qed.

Lemma byte2flag_is_shift_and_mask_witness :
  byte2flag 8 3 7 = Ok (shift_mask_bit (8 * 16 + 3) 7)
  /\ shift_mask_bit (8 * 16 + 3) 7 = true.
Proof.
  split.
  - apply (byte2flag_is_shift_and_mask 8 3 7); lia.
  - reflexivity.
Defined.

(* ===================================================================== *)
(** ** The literal grammar of [int(s, 16)] *)
(* ===================================================================== *)

Lemma digit_value_nonneg (c : Z) : 0 <= _PyLong_DigitValue c.
Proof.
  unfold _PyLong_DigitValue.
  split_ranges; lia.
Qed.

Lemma token_of_in (c : Z) : In (token_of c) all_tokens.
Proof.
  unfold token_of.
  destruct (Py_ISSPACE c); [cbn; tauto|].
  destruct (c =? 43); [cbn; tauto|].
  destruct (c =? 45); [cbn; tauto|].
  destruct (c =? 95); [cbn; tauto|].
  destruct ((c =? 120) || (c =? 88)); [cbn; tauto|].
  cbv zeta. destruct (_PyLong_DigitValue c <? 16) eqn:E; [|cbn; tauto].
  apply Z.ltb_lt in E. pose proof (digit_value_nonneg c) as Hn.
  unfold all_tokens. apply in_or_app. right. apply in_map.
  cbn. lia.
Qed.

Lemma hex_value_range (c v : Z) : hex_value c = Some v -> 0 <= v <= 15.
Proof.
  unfold hex_value.
  split_ranges; intros H; inversion H; lia.
Qed.

Lemma hex_value_ascii (c v : Z) : hex_value c = Some v -> 48 <= c <= 102.
Proof.
  unfold hex_value.
  split_ranges; intros H; inversion H; lia.
Qed.

(** A hex digit is the digit token of its value. *)
Lemma token_of_hex (c v : Z) : hex_value c = Some v -> token_of c = TDigit v.
Proof.
  unfold hex_value, token_of, Py_ISSPACE, _PyLong_DigitValue.
  split_ranges;
    intros H; inversion H; subst; clear H;
    try (exfalso; lia);
    repeat match goal with
           | |- context [?a =? ?b] =>
             destruct (Z.eqb_spec a b); [exfalso; lia|]
           end; cbn [orb]; try (exfalso; lia);
    match goal with
    | |- context [?a <? 16] =>
      destruct (Z.ltb_spec a 16); [reflexivity|exfalso; lia]
    end.
Qed.

(** Any other ASCII character is no digit token. *)
Lemma token_of_not_hex (c : Z) :
  hex_value c = None -> is_digit (token_of c) = false.
Proof.
  unfold hex_value, token_of, Py_ISSPACE, _PyLong_DigitValue.
  split_ranges;
    intros H; try discriminate H; clear H;
    try (exfalso; lia); try reflexivity;
    repeat match goal with
           | |- context [?a =? ?b] =>
             destruct (Z.eqb_spec a b); [reflexivity|]
           end; cbn [orb]; try reflexivity;
    match goal with
    | |- context [?a <? 16] =>
      destruct (Z.ltb_spec a 16); [exfalso; lia|reflexivity]
    end.
Qed.

Lemma token_of_minus (c : Z) : token_of c = TMinus -> c = 45.
Proof.
  unfold token_of.
  destruct (Py_ISSPACE c); [discriminate|].
  destruct (c =? 43); [discriminate|].
  destruct (Z.eqb_spec c 45); [trivial|].
  destruct (c =? 95); [discriminate|].
  destruct ((c =? 120) || (c =? 88)); [discriminate|].
  cbv zeta. destruct (_PyLong_DigitValue c <? 16); discriminate.
Qed.

Lemma skip_spaces_other (l : list token) :
  In TOther l -> In TOther (skip_spaces l).
Proof.
  induction l as [|t l IH]; [trivial|].
  destruct t; cbn; intros [H|H]; try discriminate H; auto.
Qed.

Lemma scan_digits_other (l : list token) :
  forall p acc n z m rest,
    In TOther l ->
    scan_digits l p acc n = Some (z, m, rest) ->
    In TOther rest.
Proof.
  induction l as [|t l IH]; intros p acc n z m rest Hin Hs.
  - destruct Hin.
  - destruct t; cbn in Hs; destruct p; try discriminate Hs;
      try (inversion Hs; subst; exact Hin);
      destruct Hin as [Hin|Hin]; try discriminate Hin;
      eapply IH; eauto.
Qed.

Lemma strip_sign_other (l : list token) :
  In TOther l -> In TOther (snd (strip_sign l)).
Proof.
  destruct l as [|t l]; [trivial|].
  destruct t; cbn; intros [H|H]; try discriminate H; auto.
Qed.

Lemma strip_prefix_other (l : list token) :
  In TOther l -> In TOther (strip_prefix l).
Proof.
  destruct l as [|t0 [|t1 [|t2 l]]]; trivial;
    destruct t0 as [| | | | |[| |]|]; trivial;
    destruct t1; trivial; try destruct t2; trivial;
    cbn; intuition discriminate.
Qed.

Lemma parse_digits_other (sign : Z) (l : list token) :
  In TOther l -> parse_digits sign l = Raise ValueError.
Proof.
  intros Hin. unfold parse_digits.
  assert (Hscan : match scan_digits l false 0 0 with
                  | None => Raise ValueError
                  | Some (_, O, _) => Raise ValueError
                  | Some (z, S _, rest) =>
                    match skip_spaces rest with
                    | [] => Ok (sign * z)
                    | _ => Raise ValueError
                    end
                  end = Raise ValueError).
  { destruct (scan_digits l false 0 0) as [[[z m] rest]|] eqn:Hs;
      [|reflexivity].
    destruct m; [reflexivity|].
    pose proof (scan_digits_other _ _ _ _ _ _ _ Hin Hs) as Hr.
    apply skip_spaces_other in Hr.
    destruct (skip_spaces rest); [destruct Hr|reflexivity]. }
  destruct l as [|t l']; [destruct Hin|].
  destruct t; trivial.
Qed.

(** A character outside the grammar, wherever it stands, makes the literal
    invalid. *)
Lemma long_from_tokens_other (l : list token) :
  In TOther l -> long_from_tokens l = Raise ValueError.
Proof.
  intros Hin. unfold long_from_tokens.
  apply skip_spaces_other, strip_sign_other in Hin.
  destruct (strip_sign (skip_spaces l)) as [sign l1]. cbn [snd] in Hin.
  apply parse_digits_other, strip_prefix_other, Hin.
Qed.

Section Literals.
Context {ucd : UnicodeData}.

Lemma char_token_in (c : Z) : In (char_token c) all_tokens.
Proof.
  unfold char_token.
  destruct (c <? 127); [apply token_of_in|].
  destruct (Py_UNICODE_ISSPACE c); [cbn; tauto|].
  cbv zeta. destruct (Py_UNICODE_TODECIMAL c <? 0); [cbn; tauto|].
  apply token_of_in.
Qed.

Lemma char_token_minus (c : Z) : char_token c = TMinus -> c = 45.
Proof.
  unfold char_token.
  destruct (c <? 127); [apply token_of_minus|].
  destruct (Py_UNICODE_ISSPACE c); [discriminate|].
  cbv zeta. destruct (Z.ltb_spec (Py_UNICODE_TODECIMAL c) 0); [discriminate|].
  intros Ht. apply token_of_minus in Ht. lia.
Qed.

Lemma char_token_hex (c v : Z) :
  hex_value c = Some v -> char_token c = TDigit v.
Proof.
  intros H. unfold char_token.
  pose proof (hex_value_ascii _ _ H) as Hc.
  destruct (Z.ltb_spec c 127); [|lia].
  now apply token_of_hex.
Qed.

(** An ASCII character that is no hex digit is no digit to [int]. *)
Lemma char_token_not_hex (c : Z) :
  c <= 127 -> hex_value c = None -> is_digit (char_token c) = false.
Proof.
  intros Hc Hh. unfold char_token.
  destruct (Z.ltb_spec c 127); [now apply token_of_not_hex|].
  assert (c = 127) by lia. subst c.
  rewrite DEL_not_space. cbv zeta.
  pose proof DEL_not_decimal as Hd. apply Z.ltb_lt in Hd.
  now rewrite Hd.
Qed.

(** The mapping to ASCII stops at the first foreign character; the literal is
    invalid then, as it is when the token of that character is read in
    place. *)
Lemma transform_tokens (s : str) :
  map token_of (transform_decimal_and_space_to_ascii s) = map char_token s
  \/ (In TOther (map token_of (transform_decimal_and_space_to_ascii s))
      /\ In TOther (map char_token s)).
Proof.
  induction s as [|ch s IH]; [now left|].
  cbn [transform_decimal_and_space_to_ascii map]. unfold char_token at 1 3.
  destruct (ch <? 127).
  - cbn [map]. destruct IH as [IH|[IH1 IH2]];
      [left; now rewrite IH | right; cbn; auto].
  - destruct (Py_UNICODE_ISSPACE ch).
    + cbn [map]. change (token_of 32) with TSpace.
      destruct IH as [IH|[IH1 IH2]];
        [left; now rewrite IH | right; cbn; auto].
    + cbv zeta. destruct (Py_UNICODE_TODECIMAL ch <? 0).
      * right. cbn. auto.
      * cbn [map]. destruct IH as [IH|[IH1 IH2]];
          [left; now rewrite IH | right; cbn; auto].
Qed.

Lemma int16_tokens (s : str) :
  int16 s = long_from_tokens (map char_token s).
Proof.
  unfold int16. destruct (transform_tokens s) as [E|[H1 H2]].
  - now rewrite E.
  - now rewrite !long_from_tokens_other.
Qed.

Lemma forallb_all_tokens (P : token -> bool) (c : Z) :
  forallb P all_tokens = true -> P (char_token c) = true.
Proof.
  intros H. rewrite forallb_forall in H. apply H, char_token_in.
Qed.

(** One character: a digit, worth 0 to 15, or invalid. *)
Lemma int16_one (a : Z) :
  literal1_ok (char_token a) = true.
Proof. apply forallb_all_tokens. vm_compute. reflexivity. Qed.

Lemma int16_two (a b : Z) :
  literal2_ok (char_token a) (char_token b) = true.
Proof.
  assert (H : forallb (fun x => forallb (literal2_ok x) all_tokens)
                      all_tokens = true) by (vm_compute; reflexivity).
  rewrite forallb_forall in H.
  specialize (H _ (char_token_in a)). rewrite forallb_forall in H.
  apply H, char_token_in.
Qed.

Lemma int16_three (a b c : Z) :
  literal3_ok (char_token a) (char_token b) (char_token c) = true.
Proof.
  assert (H : forallb
                (fun x =>
                   forallb (fun y => forallb (literal3_ok x y) all_tokens)
                           all_tokens)
                all_tokens = true) by (vm_compute; reflexivity).
  rewrite forallb_forall in H.
  specialize (H _ (char_token_in a)). rewrite forallb_forall in H.
  specialize (H _ (char_token_in b)). rewrite forallb_forall in H.
  apply H, char_token_in.
Qed.

Lemma int16_one_range (a v : Z) : int16 [a] = Ok v -> 0 <= v <= 15.
Proof.
  intros E. rewrite int16_tokens in E. cbn [map] in E.
  pose proof (int16_one a) as H. unfold literal1_ok in H. rewrite E in H.
  rewrite !andb_true_iff, !Z.leb_le in H. lia.
Qed.

Lemma int16_two_range (a b v : Z) :
  digit_or_space (char_token a) = true ->
  int16 [a; b] = Ok v -> 0 <= v <= 255.
Proof.
  intros Ha E. rewrite int16_tokens in E. cbn [map] in E.
  pose proof (int16_two a b) as H. unfold literal2_ok in H.
  rewrite E, Ha in H. cbn [negb orb] in H.
  rewrite !andb_true_iff, !Z.leb_le in H. lia.
Qed.

Lemma int16_three_range (a b c v : Z) :
  int16 [a; b; c] = Ok v ->
  -255 <= v <= 4095
  /\ (v < 0 -> a = 45 \/ b = 45)
  /\ digit_or_space (char_token c) = true.
Proof.
  intros E. rewrite int16_tokens in E. cbn [map] in E.
  pose proof (int16_three a b c) as H. unfold literal3_ok in H.
  rewrite E in H.
  rewrite !andb_true_iff, !orb_true_iff, !Z.leb_le in H.
  destruct H as [[[Hlo Hhi] Hneg] Hlast].
  repeat split; trivial. intros Hv.
  destruct Hneg as [[Hneg|Hneg]|Hneg]; [lia| |].
  - left. apply char_token_minus.
    destruct (char_token a); try discriminate Hneg; reflexivity.
  - right. apply char_token_minus.
    destruct (char_token b); try discriminate Hneg; reflexivity.
Qed.

(** [int] raises nothing but [ValueError]. *)
Lemma int16_raises (s : str) (e : exn) : int16 s = Raise e -> e = ValueError.
Proof.
  unfold int16, long_from_tokens, parse_digits.
  repeat match goal with
         | |- context [match ?x with _ => _ end] => destruct x
         end; intros E; inversion E; reflexivity.
Qed.

(** An ASCII character that is neither a hex digit nor a character of the
    grammar is foreign to it. *)
Lemma char_token_foreign (c : Z) :
  c <= 127 -> hex_value c = None -> literal_char c = false ->
  char_token c = TOther.
Proof.
  intros Hc Hh Hl. pose proof (char_token_not_hex c Hc Hh) as Hd.
  revert Hd. unfold char_token.
  destruct (Z.ltb_spec c 127).
  - unfold literal_char in Hl. unfold token_of.
    do 5 (apply orb_false_iff in Hl; destruct Hl as [Hl ?]).
    rewrite Hl.
    repeat match goal with
           | H : (?a =? ?b) = false |- _ => rewrite H; clear H
           end.
    cbn [orb]. cbv zeta.
    destruct (_PyLong_DigitValue c <? 16); [discriminate|reflexivity].
  - assert (c = 127) by lia. subst c.
    rewrite DEL_not_space. cbv zeta.
    pose proof DEL_not_decimal as Hdel. apply Z.ltb_lt in Hdel.
    now rewrite Hdel.
Qed.

Lemma int16_foreign (s : str) (c : Z) :
  In c s -> char_token c = TOther -> int16 s = Raise ValueError.
Proof.
  intros Hin Hc. rewrite int16_tokens. apply long_from_tokens_other.
  rewrite <- Hc. now apply in_map.
Qed.

(** One ASCII character that is no hex digit is no literal. *)
Lemma int16_not_hex (c : Z) :
  c <= 127 -> hex_value c = None -> int16 [c] = Raise ValueError.
Proof.
  intros Hc Hh. pose proof (char_token_not_hex c Hc Hh) as Hd.
  pose proof (int16_one c) as H. unfold literal1_ok in H.
  destruct (int16 [c]) as [v|e] eqn:E.
  - rewrite int16_tokens in E. cbn [map] in E. rewrite E, Hd in H.
    discriminate H.
  - f_equal. eapply int16_raises, E.
Qed.

End Literals.

(* ===================================================================== *)
(** ** Prefix and suffix tests *)
(* ===================================================================== *)

Lemma str_eqb_eq (a b : str) : str_eqb a b = true <-> a = b.
Proof.
  revert b. induction a as [|x a IH]; intros [|y b]; cbn;
    try (split; [discriminate|congruence]); [tauto|].
  rewrite andb_true_iff, Z.eqb_eq, IH.
  split; [intros [-> ->]; reflexivity | intros E; inversion E; auto].
Qed.

Lemma startswith_spec (s p : str) :
  startswith s p = true <-> has_prefix p s.
Proof.
  unfold startswith, has_prefix. rewrite str_eqb_eq. split.
  - intros E. exists (skipn (length p) s).
    rewrite <- E at 1. symmetry. apply firstn_skipn.
  - intros [rest ->]. rewrite firstn_app, firstn_all, Nat.sub_diag.
    cbn. apply app_nil_r.
Qed.

Lemma endswith_spec (s p : str) :
  endswith s p = true <-> has_suffix p s.
Proof.
  unfold endswith, has_suffix.
  rewrite andb_true_iff, Nat.leb_le, str_eqb_eq. split.
  - intros [Hlen E]. exists (firstn (length s - length p) s).
    rewrite <- E at 2. symmetry. apply firstn_skipn.
  - intros [init ->]. rewrite length_app. split; [lia|].
    replace (length init + length p - length p)%nat with (length init)
      by lia.
    rewrite skipn_app, skipn_all, Nat.sub_diag. reflexivity.
Qed.

(* ===================================================================== *)
(** ** The frame decoder *)
(* ===================================================================== *)

Section DecoderFacts.
Context {ucd : UnicodeData}.

(** What [_handle_16_byte_data] does, said without the monad: the value it
    returns, and what it logs. *)
Lemma handle_16_byte_data_run (data : str) (self : session) :
  _handle_16_byte_data data self
  = if negb (startswith data (text "$A0"))
       || negb (endswith data (text "#"))
    then (Ok None, self)
    else match parse_fields data with
         | Ok r => (Ok r, self)
         | Raise e =>
           (Ok None,
            recording self
              [Log_warning (text "Error parsing 16-byte data: %s") e])
         end.
Proof.
  unfold _handle_16_byte_data.
  destruct (negb (startswith data (text "$A0"))
            || negb (endswith data (text "#"))); [reflexivity|].
  unfold try_except, lift, bind, emit, ret.
  destruct (parse_fields data); reflexivity.
Qed.

Lemma handle_16_byte_data_some (data : str) (self self' : session)
      (r : parsed) :
  _handle_16_byte_data data self = (Ok (Some r), self') ->
  has_prefix (text "$A0") data /\ has_suffix (text "#") data
  /\ parse_fields data = Ok (Some r) /\ self' = self.
Proof.
  rewrite handle_16_byte_data_run.
  destruct (startswith data (text "$A0")) eqn:Ep;
    [|cbn; intros H; inversion H].
  destruct (endswith data (text "#")) eqn:Es;
    [|cbn; intros H; inversion H].
  cbn. apply startswith_spec in Ep. apply endswith_spec in Es.
  destruct (parse_fields data) as [[p|]|e]; intros H; inversion H; subst.
  auto.
Qed.

(** The fields of a 16-character frame, in the order the [try] body reads
    them. *)
Lemma parse_fields_16
      (c0 c1 c2 c3 c4 c5 c6 c7 c8 c9 c10 c11 c12 c13 c14 c15 : Z) :
  parse_fields [c0; c1; c2; c3; c4; c5; c6; c7; c8; c9; c10; c11; c12;
                c13; c14; c15]
  = (let* n6 := int16 [c6] in
     let* flag_hi := int16 [c7] in
     let* flag_lo := int16 [c8] in
     let* battery_low := byte2flag flag_hi flag_lo 1 in
     let* rx_data_fresh := byte2flag flag_hi flag_lo 7 in
     let* half_point := byte2flag flag_hi flag_lo 0 in
     if negb rx_data_fresh then Ok None
     else
       let* p := int16 [c9; c10; c11] in
       let* t := int16 [c11; c12] in
       Ok (Some {| pressure := if half_point then add_float p (1 # 2)
                               else PyInt p;
                   temperature := t - 40;
                   battery := if battery_low then 20 else 100;
                   sensor_no := n6 + 1 |})).
Proof. reflexivity. Qed.

(** One hex digit, and runs of two and three. *)
Lemma int16_hex1 (a x : Z) : hex_value a = Some x -> int16 [a] = Ok x.
Proof.
  intros Ha. rewrite int16_tokens. cbn [map].
  rewrite (char_token_hex _ _ Ha).
  pose proof (hex_value_range _ _ Ha).
  unfold long_from_tokens.
  destruct x; cbn; f_equal; lia.
Qed.

Lemma int16_hex2 (a b x y : Z) :
  hex_value a = Some x -> hex_value b = Some y ->
  int16 [a; b] = Ok (x * 16 + y).
Proof.
  intros Ha Hb. rewrite int16_tokens. cbn [map].
  rewrite (char_token_hex _ _ Ha), (char_token_hex _ _ Hb).
  pose proof (hex_value_range _ _ Ha). pose proof (hex_value_range _ _ Hb).
  unfold long_from_tokens.
  destruct x; cbn -[Z.mul Z.add]; f_equal; lia.
Qed.

Lemma int16_hex3 (a b c x y z : Z) :
  hex_value a = Some x -> hex_value b = Some y -> hex_value c = Some z ->
  int16 [a; b; c] = Ok (x * 256 + y * 16 + z).
Proof.
  intros Ha Hb Hc. rewrite int16_tokens. cbn [map].
  rewrite (char_token_hex _ _ Ha), (char_token_hex _ _ Hb),
    (char_token_hex _ _ Hc).
  pose proof (hex_value_range _ _ Ha). pose proof (hex_value_range _ _ Hb).
  pose proof (hex_value_range _ _ Hc).
  unfold long_from_tokens.
  destruct x; cbn -[Z.mul Z.add]; f_equal; lia.
Qed.

End DecoderFacts.

Section DecoderClaims.
Context {ucd : UnicodeData}.

Lemma hex_at_cons (c : Z) (l : str) (i : nat) :
  hex_at (c :: l) (S i) = hex_at l i.
Proof. reflexivity. Qed.

Lemma hex_at_here (c : Z) (l : str) : hex_at (c :: l) 0 = hex_value c.
Proof. reflexivity. Qed.

(** C1: a 16-character frame (ASCII or not) that starts with [$A0], ends with
    [#], has hex digits d6 to d12 at positions 6 to 12 and bit 7 set in the
    flags byte [d7 * 16 + d8], decodes to exactly: sensor [d6 + 1]; pressure
    the three digits d9 d10 d11, plus one half if and only if bit 0 of the
    flags is set; temperature the two digits d11 d12 minus 40; battery 20 if
    bit 1 of the flags is set, else 100. Nothing is logged. *)
Theorem decode_fresh_frame (data : str) (self : session)
        (d6 d7 d8 d9 d10 d11 d12 : Z) :
  length data = 16%nat ->
  has_prefix (text "$A0") data ->
  has_suffix (text "#") data ->
  hex_at data 6 = Some d6 ->
  hex_at data 7 = Some d7 ->
  hex_at data 8 = Some d8 ->
  hex_at data 9 = Some d9 ->
  hex_at data 10 = Some d10 ->
  hex_at data 11 = Some d11 ->
  hex_at data 12 = Some d12 ->
  Z.testbit (d7 * 16 + d8) 7 = true ->
  _handle_16_byte_data data self
  = (Ok (Some {| pressure :=
                   if Z.testbit (d7 * 16 + d8) 0
                   then PyFloat (inject_Z (d9 * 256 + d10 * 16 + d11)
                                 + (1 # 2))%Q
                   else PyInt (d9 * 256 + d10 * 16 + d11);
                 temperature := d11 * 16 + d12 - 40;
                 battery := if Z.testbit (d7 * 16 + d8) 1 then 20 else 100;
                 sensor_no := d6 + 1 |}),
     self).
Proof.
  intros Hlen Hp Hs H6 H7 H8 H9 H10 H11 H12 Hfresh.
  rewrite handle_16_byte_data_run.
  apply startswith_spec in Hp. apply endswith_spec in Hs.
  rewrite Hp, Hs. cbn [negb orb].
  explode16 data Hlen.
  repeat rewrite hex_at_cons in *. rewrite hex_at_here in *.
  rewrite parse_fields_16.
  rewrite (int16_hex1 _ _ H6), (int16_hex1 _ _ H7), (int16_hex1 _ _ H8).
  cbn [rbind]. rewrite !byte2flag_testbit by lia. cbn [rbind].
  rewrite Hfresh. cbn [negb].
  rewrite (int16_hex3 _ _ _ _ _ _ H9 H10 H11), (int16_hex2 _ _ _ _ H11 H12).
  reflexivity.
Qed.

(** C3: a 16-character frame with the [$A0] prefix, the [#] suffix and hex
    digits at positions 6 to 12 whose flags byte has bit 7 clear gives no
    reading, whatever its other bits and characters are: the [try] body
    returns [None] at the freshness test, nothing is parsed further and
    nothing is logged. *)
Theorem stale_frame_discarded (data : str) (self : session)
        (d6 d7 d8 d9 d10 d11 d12 : Z) :
  length data = 16%nat ->
  has_prefix (text "$A0") data ->
  has_suffix (text "#") data ->
  hex_at data 6 = Some d6 ->
  hex_at data 7 = Some d7 ->
  hex_at data 8 = Some d8 ->
  hex_at data 9 = Some d9 ->
  hex_at data 10 = Some d10 ->
  hex_at data 11 = Some d11 ->
  hex_at data 12 = Some d12 ->
  Z.testbit (d7 * 16 + d8) 7 = false ->
  parse_fields data = Ok None
  /\ _handle_16_byte_data data self = (Ok None, self).
Proof.
  intros Hlen Hp Hs H6 H7 H8 _ _ _ _ Hstale.
  rewrite handle_16_byte_data_run.
  apply startswith_spec in Hp. apply endswith_spec in Hs.
  rewrite Hp, Hs. cbn [negb orb].
  explode16 data Hlen.
  repeat rewrite hex_at_cons in *. rewrite hex_at_here in *.
  rewrite parse_fields_16.
  rewrite (int16_hex1 _ _ H6), (int16_hex1 _ _ H7), (int16_hex1 _ _ H8).
  cbn [rbind]. rewrite !byte2flag_testbit by lia. cbn [rbind].
  rewrite Hstale. cbn [negb]. split; reflexivity.
Qed.

(** C6, amended: a 16-character text that does not start with [$A0] or does
    not end with [#] gives no reading: [_handle_16_byte_data] returns [None]
    at the format test at its head, before any field is read, and leaves the
    instance and the log as they were. It returns no reason: the outcome is
    the bare [None] that a stale frame gets. *)
Theorem bad_format_rejected (data : str) (self : session) :
  length data = 16%nat ->
  ~ has_prefix (text "$A0") data \/ ~ has_suffix (text "#") data ->
  _handle_16_byte_data data self = (Ok None, self).
Proof.
  intros _ Hbad. rewrite handle_16_byte_data_run.
  destruct (startswith data (text "$A0")) eqn:Ep.
  - destruct (endswith data (text "#")) eqn:Es; [|reflexivity].
    apply startswith_spec in Ep. apply endswith_spec in Es. tauto.
  - reflexivity.
Qed.

(** C9: two 16-character texts that agree at positions 0, 1, 2, 6 to 12 and
    15 are decoded alike, whatever stands at positions 3, 4, 5, 13 and 14:
    the same value is returned (the same reading, or none), and the same
    warning, if any, is logged. *)
Theorem filler_is_ignored (d1 d2 : str) (self : session) :
  length d1 = 16%nat ->
  length d2 = 16%nat ->
  (forall i, In i field_positions -> nth_error d1 i = nth_error d2 i) ->
  _handle_16_byte_data d1 self = _handle_16_byte_data d2 self.
Proof.
  intros L1 L2 Hagree.
  assert (F : Forall (fun i => nth_error d1 i = nth_error d2 i)
                     field_positions) by (apply Forall_forall, Hagree).
  clear Hagree. explode16 d1 L1. explode16 d2 L2.
  unfold field_positions in F.
  repeat match goal with
         | H : Forall _ (_ :: _) |- _ => inversion_clear H
         end.
  cbn [nth_error] in *.
  repeat match goal with
         | H : Some _ = Some _ |- _ => inversion H; clear H
         end.
  subst. rewrite !handle_16_byte_data_run, !parse_fields_16.
  reflexivity.
Qed.

(** A reading comes out of the [try] body only along one path: the three
    one-character fields parse, bit 7 of the flags is set, and the pressure
    and temperature fields parse. The temperature field is [data[11:13]],
    a single character when position 11 is the last of the text. *)
Lemma parse_fields_some (data : str) (r : parsed) :
  parse_fields data = Ok (Some r) ->
  exists c6 c7 c8 c9 c10 c11 tail n6 flag_hi flag_lo p t,
    skipn 6 data = c6 :: c7 :: c8 :: c9 :: c10 :: c11 :: tail
    /\ int16 [c6] = Ok n6
    /\ int16 [c7] = Ok flag_hi
    /\ int16 [c8] = Ok flag_lo
    /\ Z.testbit (flag_hi * 16 + flag_lo) 7 = true
    /\ int16 [c9; c10; c11] = Ok p
    /\ int16 (c11 :: firstn 1 tail) = Ok t
    /\ r = {| pressure :=
                if Z.testbit (flag_hi * 16 + flag_lo) 0
                then add_float p (1 # 2) else PyInt p;
              temperature := t - 40;
              battery :=
                if Z.testbit (flag_hi * 16 + flag_lo) 1 then 20 else 100;
              sensor_no := n6 + 1 |}.
Proof.
  intros H. unfold parse_fields in H.
  assert (Hshort : forall A (k : str -> result A) v,
             rbind (Raise IndexError) k <> Ok v) by (intros; discriminate).
  do 6 (destruct data as [|? data]; [now apply Hshort in H|]).
  destruct data as [|c6 data]; [now apply Hshort in H|].
  cbn [getitem nth_error rbind] in H. rbind_inv H.
  destruct data as [|c7 data]; [now apply Hshort in H|].
  cbn [getitem nth_error rbind] in H. rbind_inv H.
  destruct data as [|c8 data]; [now apply Hshort in H|].
  cbn [getitem nth_error rbind] in H. rbind_inv H.
  rewrite !byte2flag_testbit in H by lia. cbn [rbind] in H.
  destruct (Z.testbit (a0 * 16 + a1) 7) eqn:Hfresh;
    cbn [negb] in H; [|discriminate H].
  do 3 (destruct data as [|? data]; [now apply Hshort in H|]).
  cbn [getitem nth_error rbind] in H.
  unfold slice in H. cbn [skipn Nat.sub firstn app] in H.
  rbind_inv H.
  rbind_inv H.
  inversion H; subst; clear H.
  do 12 eexists. repeat split; eassumption.
Qed.

(** C7: whenever [_handle_16_byte_data] returns a reading, the flags byte is
    [int(data[7], 16) * 16 + int(data[8], 16)], and the battery value is 20
    if bit 1 of that byte is set and 100 if it is clear; it is never anything
    but 20 or 100. *)
Theorem battery_is_binary (data : str) (self self' : session) (r : parsed) :
  _handle_16_byte_data data self = (Ok (Some r), self') ->
  exists c7 c8 flag_hi flag_lo,
    nth_error data 7 = Some c7
    /\ nth_error data 8 = Some c8
    /\ int16 [c7] = Ok flag_hi
    /\ int16 [c8] = Ok flag_lo
    /\ battery r
       = (if Z.testbit (flag_hi * 16 + flag_lo) 1 then 20 else 100)
    /\ (battery r = 20 \/ battery r = 100).
Proof.
  intros H. apply handle_16_byte_data_some in H.
  destruct H as (_ & _ & H & _).
  apply parse_fields_some in H.
  destruct H as (c6 & c7 & c8 & c9 & c10 & c11 & tail & n6 & hi & lo & p
                 & t & Hdata & _ & H7 & H8 & _ & _ & _ & ->).
  exists c7, c8, hi, lo. cbn [battery].
  repeat split; trivial.
  - change 7%nat with (6 + 1)%nat.
    rewrite <- nth_error_skipn, Hdata. reflexivity.
  - change 8%nat with (6 + 2)%nat.
    rewrite <- nth_error_skipn, Hdata. reflexivity.
  - destruct (Z.testbit (hi * 16 + lo) 1); auto.
Qed.

(** C10, amended: every reading that [_handle_16_byte_data] returns has its
    sensor number between 1 and 16, its pressure between -255 and 4095.5 and
    a whole number of halves, its temperature between -40 and 215, and its
    battery 20 or 100. The pressure is negative only when a minus sign, which
    [int] accepts in front of the digits, stands at position 9 or 10. *)
Theorem reading_ranges (data : str) (self self' : session) (r : parsed) :
  _handle_16_byte_data data self = (Ok (Some r), self') ->
  1 <= sensor_no r <= 16
  /\ (inject_Z (-255) <= num_value (pressure r) <= inject_Z 4095 + (1 # 2))%Q
  /\ half_steps (pressure r)
  /\ ((num_value (pressure r) < 0)%Q ->
      nth_error data 9 = Some 45 \/ nth_error data 10 = Some 45)
  /\ -40 <= temperature r <= 215
  /\ (battery r = 20 \/ battery r = 100).
Proof.
  intros H. apply handle_16_byte_data_some in H.
  destruct H as (_ & _ & H & _).
  apply parse_fields_some in H.
  destruct H as (c6 & c7 & c8 & c9 & c10 & c11 & tail & n6 & hi & lo & p
                 & t & Hdata & H6 & _ & _ & _ & Hp & Ht & ->).
  cbn [sensor_no pressure temperature battery].
  apply int16_one_range in H6.
  apply int16_three_range in Hp. destruct Hp as (Hp & Hneg & Hlast).
  assert (Htemp : 0 <= t <= 255).
  { destruct tail as [|c12 tail]; cbn [firstn] in Ht.
    - apply int16_one_range in Ht. lia.
    - eapply int16_two_range; eassumption. }
  assert (H9 : nth_error data 9 = Some c9).
  { change 9%nat with (6 + 3)%nat.
    rewrite <- nth_error_skipn, Hdata. reflexivity. }
  assert (H10 : nth_error data 10 = Some c10).
  { change 10%nat with (6 + 4)%nat.
    rewrite <- nth_error_skipn, Hdata. reflexivity. }
  rewrite H9, H10.
  split; [lia|].
  assert (Hpress :
            (inject_Z (-255)
             <= num_value (if Z.testbit (hi * 16 + lo) 0
                           then add_float p (1 # 2) else PyInt p)
             <= inject_Z 4095 + (1 # 2))%Q
            /\ half_steps (if Z.testbit (hi * 16 + lo) 0
                           then add_float p (1 # 2) else PyInt p)
            /\ ((num_value (if Z.testbit (hi * 16 + lo) 0
                            then add_float p (1 # 2) else PyInt p) < 0)%Q
                -> p < 0)).
  { destruct (Z.testbit (hi * 16 + lo) 0);
      unfold half_steps, add_float, num_value, Qle, Qlt, Qeq, Qplus,
      Qmult, inject_Z; cbn [Qnum Qden];
      (split; [|split]); try lia.
    - exists (2 * p + 1). cbn [Qnum Qden]. lia.
    - exists (2 * p). cbn [Qnum Qden]. lia. }
  destruct Hpress as (Hrange & Hhalf & Hsign).
  split; [exact Hrange|]. split; [exact Hhalf|].
  split.
  - intros Hn. apply Hsign, Hneg in Hn. destruct Hn as [-> | ->]; auto.
  - split; [lia|]. destruct (Z.testbit (hi * 16 + lo) 1); auto.
Qed.

End DecoderClaims.

(* ===================================================================== *)
(** ** The session: what the recorded calls are *)
(* ===================================================================== *)

Lemma recording_app (self : session) (a b : list event) :
  recording (recording self a) b = recording self (a ++ b).
Proof. unfold recording. cbn. now rewrite app_assoc. Qed.

Lemma published_app (a b : list event) :
  published (a ++ b) = published a ++ published b.
Proof. apply filter_app. Qed.

Lemma handshakes_app (a b : list event) :
  handshakes (a ++ b) = (handshakes a + handshakes b)%nat.
Proof. unfold handshakes. now rewrite filter_app, length_app. Qed.

Section HandlerFacts.
Context {ucd : UnicodeData}.

Lemma update_sensors_run (now : Z) (p : parsed) (self : session) :
  _update_sensors now p self = (Ok tt, recording self (update_calls now p)).
Proof.
  unfold _update_sensors, bind, emit. cbv zeta.
  now rewrite !recording_app.
Qed.

(** [_on_data_received], said without the monad. *)
Lemma on_data_received_run (now : Z) (data : Py.bytes) (self : session) :
  _on_data_received now data self
  = match decode_utf8 data with
    | Raise e =>
      (Ok tt, recording self [Log_warning (text "Failed to decode: %s") e])
    | Ok data_str =>
      if (length data_str =? 16)%nat then
        if negb (startswith data_str (text "$A0"))
           || negb (endswith data_str (text "#"))
        then (Ok tt, self)
        else
          match parse_fields data_str with
          | Ok (Some p) => (Ok tt, recording self (update_calls now p))
          | Ok None => (Ok tt, self)
          | Raise e =>
            (Ok tt,
             recording self
               [Log_warning (text "Error parsing 16-byte data: %s") e])
          end
      else (Ok tt, self)
    end.
Proof.
  unfold _on_data_received, bind, try_except, lift, ret, emit.
  destruct (decode_utf8 data) as [data_str|e]; [|reflexivity].
  destruct (length data_str =? 16)%nat; [|reflexivity].
  rewrite handle_16_byte_data_run.
  destruct (negb (startswith data_str (text "$A0"))
            || negb (endswith data_str (text "#"))); [reflexivity|].
  destruct (parse_fields data_str) as [[p|]|e]; try reflexivity.
  apply update_sensors_run.
Qed.

End HandlerFacts.

(* ===================================================================== *)
(** ** The session: characteristics and handshake *)
(* ===================================================================== *)

(** The loop over the characteristics only ever assigns a characteristic to
    an attribute: it calls nothing, cannot fail, and empties neither. *)
Lemma record_characteristics_run (chars : list characteristic) :
  forall self : session,
  exists self',
    record_characteristics chars self = (Ok tt, self')
    /\ trace self' = trace self
    /\ (notify_char self <> None -> notify_char self' <> None)
    /\ (write_char self <> None -> write_char self' <> None).
Proof.
  induction chars as [|char chars IH]; intros self.
  - exists self. cbn. auto.
  - cbn [record_characteristics]. unfold bind.
    destruct (str_eqb (uuid char) NOTIFY_CHARACTERISTIC_UUID).
    + cbn [set_notify_char].
      destruct (IH {| notify_char := Some char;
                      write_char := write_char self;
                      trace := trace self |})
        as (self' & Hrun & Htr & Hn & Hw).
      exists self'. cbn in *. repeat split; auto.
      intros _. apply Hn. discriminate.
    + destruct (str_eqb (uuid char) WRITE_CHARACTERISTIC_UUID).
      * cbn [set_write_char].
        destruct (IH {| notify_char := notify_char self;
                        write_char := Some char;
                        trace := trace self |})
          as (self' & Hrun & Htr & Hn & Hw).
        exists self'. cbn in *. repeat split; auto.
        intros _. apply Hw. discriminate.
      * cbn [ret]. apply IH.
Qed.

Lemma enable_notifications_run (self : session) (nc wc : characteristic) :
  notify_char self = Some nc ->
  write_char self = Some wc ->
  _enable_notifications_and_send_command self
  = (Ok tt, recording self (handshake nc wc)).
Proof.
  intros Hn Hw.
  unfold _enable_notifications_and_send_command, bind, emit,
    get_notify_char, get_write_char.
  cbn [recording notify_char write_char]. rewrite Hn.
  cbn [recording notify_char write_char]. rewrite Hw.
  unfold recording, handshake. cbn [notify_char write_char trace].
  now rewrite <- !app_assoc.
Qed.

Lemma matches_split (info : service_info) :
  matches info = false ->
  negb (str_in (name info) TARGET_NAMES) = true
  \/ (negb (str_in (name info) TARGET_NAMES) = false
      /\ negb (str_in SERVICE_UUID (service_uuids info)) = true).
Proof.
  unfold matches.
  destruct (str_in (name info) TARGET_NAMES);
    destruct (str_in SERVICE_UUID (service_uuids info));
    cbn [andb negb]; auto; discriminate.
Qed.

(** One advertisement. It never fails; it never empties an attribute; and
    the handshake follows exactly when the advertisement matches and both
    attributes are set once its characteristics are recorded. *)
Lemma start_update_run (info : service_info) (self : session) :
  exists self',
    _start_update info self = (Ok tt, self')
    /\ (notify_char self <> None -> notify_char self' <> None)
    /\ (write_char self <> None -> write_char self' <> None)
    /\ exists calls,
        trace self' = trace self ++ debug_call :: calls
        /\ ((matches info && complete self' = false
             /\ handshakes calls = 0%nat)
            \/ (matches info && complete self' = true
                /\ exists nc wc,
                    notify_char self' = Some nc
                    /\ write_char self' = Some wc
                    /\ calls = metadata_calls info ++ handshake nc wc)).
Proof.
  unfold _start_update. unfold bind at 1. unfold emit at 1.
  fold debug_call.
  destruct (matches info) eqn:Em.
  - unfold matches in Em. apply andb_true_iff in Em. destruct Em as [E1 E2].
    rewrite E1, E2. cbn [negb].
    unfold bind, emit. rewrite !recording_app.
    destruct (record_characteristics_run
                (characteristics info)
                (recording self
                           ([debug_call] ++ [Set_device_manufacturer
                                               (text "TPMS")]
                            ++ [Set_device_name (name info)]
                            ++ [Set_title (name info)])))
      as (s2 & Hrun & Htr & Hn & Hw).
    rewrite Hrun. unfold get_notify_char, get_write_char.
    cbn [recording notify_char write_char trace] in Htr, Hn, Hw.
    assert (Hno : forall calls,
               trace s2 = trace self ++ debug_call :: calls ->
               complete s2 = false ->
               exists self',
                 (Ok tt, s2) = (Ok tt, self')
                 /\ (notify_char self <> None -> notify_char self' <> None)
                 /\ (write_char self <> None -> write_char self' <> None)
                 /\ exists calls,
                     trace self' = trace self ++ debug_call :: calls
                     /\ ((true && complete self' = false
                          /\ handshakes calls = 0%nat)
                         \/ (true && complete self' = true
                             /\ exists nc wc,
                                 notify_char self' = Some nc
                                 /\ write_char self' = Some wc
                                 /\ calls
                                    = metadata_calls info
                                      ++ handshake nc wc))).
    { intros calls Hc Hcomp. exists s2. repeat split; auto.
      exists calls. split; [exact Hc|].
      left. rewrite Hcomp. split; [reflexivity|].
      assert (Hh : handshakes (trace s2)
                   = handshakes (trace self ++ debug_call :: calls))
        by now rewrite Hc.
      rewrite Htr in Hh.
      change (debug_call :: calls) with ([debug_call] ++ calls) in Hh.
      rewrite !handshakes_app in Hh. cbn in Hh. lia. }
    destruct (notify_char s2) as [nc|] eqn:En;
      destruct (write_char s2) as [wc|] eqn:Ew; cbn [truthy andb ret];
      try (apply (Hno (metadata_calls info));
           [rewrite Htr; reflexivity
           |unfold complete; rewrite En, Ew; reflexivity]).
    rewrite (enable_notifications_run s2 nc wc En Ew).
    eexists. split; [reflexivity|].
    cbn [recording notify_char write_char trace].
    split; [rewrite En; exact Hn|].
    split; [rewrite Ew; exact Hw|].
    eexists. split.
    + rewrite Htr. rewrite <- !app_assoc. reflexivity.
    + right. unfold complete. cbn [recording notify_char write_char].
      rewrite En, Ew. split; [reflexivity|].
      exists nc, wc. auto.
  - exists (recording self [debug_call]).
    split.
    + destruct (matches_split info Em) as [E|[E1 E2]].
      * now rewrite E.
      * now rewrite E1, E2.
    + cbn [recording notify_char write_char trace].
      repeat split; auto. exists []. auto.
Qed.

(** C8: from a state in which both the notify and the write characteristic
    are set, an advertisement leaves both set, and so does a notification
    (which does not touch them): no method of the class empties either. *)
Theorem characteristic_pair_is_kept {ucd : UnicodeData}
        (self : session) (info : service_info) (now : Z) (data : Py.bytes) :
  notify_char self <> None ->
  write_char self <> None ->
  (notify_char (snd (_start_update info self)) <> None
   /\ write_char (snd (_start_update info self)) <> None)
  /\ (notify_char (snd (_on_data_received now data self)) = notify_char self
      /\ write_char (snd (_on_data_received now data self))
         = write_char self).
Proof.
  intros Hn Hw. split.
  - destruct (start_update_run info self) as (self' & Hrun & Hn' & Hw' & _).
    rewrite Hrun. cbn [snd]. auto.
  - rewrite on_data_received_run.
    destruct (decode_utf8 data) as [s|e]; [|split; reflexivity].
    destruct (length s =? 16)%nat; [|split; reflexivity].
    destruct (negb (startswith s (text "$A0"))
              || negb (endswith s (text "#"))); [split; reflexivity|].
    destruct (parse_fields s) as [[p|]|e]; split; reflexivity.
Qed.

(* ===================================================================== *)
(** ** Concrete frames and sessions *)
(* ===================================================================== *)

(** What [int(s, 16)] makes of some short texts. *)
Example int16_plain : int16 (text "1f") = Ok 31.
Proof. reflexivity. Qed.

Example int16_blank_in_front : int16 (text " 1f") = Ok 31.
Proof. reflexivity. Qed.

Example int16_blank_behind : int16 (text "f ") = Ok 15.
Proof. reflexivity. Qed.

Example int16_minus : int16 (text "-1f") = Ok (-31).
Proof. reflexivity. Qed.

Example int16_prefix : int16 (text "0x1") = Ok 1.
Proof. reflexivity. Qed.

Example int16_underscore : int16 (text "1_f") = Ok 31.
Proof. reflexivity. Qed.

Example int16_underscore_in_front : int16 (text "_1f") = Raise ValueError.
Proof. reflexivity. Qed.

Example int16_sign_alone : int16 (text "-") = Raise ValueError.
Proof. reflexivity. Qed.

Example int16_blank_inside : int16 (text "1 f") = Raise ValueError.
Proof. reflexivity. Qed.

Example int16_letter_g : int16 (text "g") = Raise ValueError.
Proof. reflexivity. Qed.

(** Bytes that are and are not UTF-8. *)
Example utf8_two_bytes : utf8_decode [194; 176; 67] = Ok [176; 67].
Proof. reflexivity. Qed.

Example utf8_lone_continuation :
  utf8_decode [36; 128] = Raise UnicodeDecodeError.
Proof. reflexivity. Qed.

Example utf8_overlong : utf8_decode [192; 128] = Raise UnicodeDecodeError.
Proof. reflexivity. Qed.

Example utf8_surrogate :
  utf8_decode [237; 160; 128] = Raise UnicodeDecodeError.
Proof. reflexivity. Qed.

(** The temperature digits 28 read as 0 degrees and 00 as -40; the sensor
    digit 0 is sensor 1 and the digit 3 sensor 4. *)
Example temperature_28 :
  parse_fields (text "$A0000080002800#")
  = Ok (Some {| pressure := PyInt 2; temperature := 0; battery := 100;
                sensor_no := 1 |}).
Proof. reflexivity. Qed.

Example temperature_00 :
  parse_fields (text "$A0000380000000#")
  = Ok (Some {| pressure := PyInt 0; temperature := -40; battery := 100;
                sensor_no := 4 |}).
Proof. reflexivity. Qed.

(** One matching advertisement on a fresh instance: the metadata, then the
    handshake in its order. *)
Example first_advertisement :
  _start_update tyredog __init__
  = (Ok tt,
     {| notify_char :=
          Some {| uuid := NOTIFY_CHARACTERISTIC_UUID; handle := 11 |};
        write_char :=
          Some {| uuid := WRITE_CHARACTERISTIC_UUID; handle := 13 |};
        trace :=
          debug_call
            :: metadata_calls tyredog
            ++ handshake
                 {| uuid := NOTIFY_CHARACTERISTIC_UUID; handle := 11 |}
                 {| uuid := WRITE_CHARACTERISTIC_UUID; handle := 13 |} |}).
Proof. reflexivity. Qed.

(** A notification on a fresh frame publishes the four sensors. *)
Example notification_published :
  _on_data_received 1700000000 (list_byte_of_string "$A0000383012280#")
                    __init__
  = (Ok tt,
     recording __init__
               (update_calls 1700000000
                             {| pressure := PyFloat (37 # 2);
                                temperature := -6;
                                battery := 20;
                                sensor_no := 4 |})).
Proof. reflexivity. Qed.

Example sensor_name : str_of_int 4 = text "4".
Proof. reflexivity. Qed.

Lemma decode_fresh_frame_witness :
  _handle_16_byte_data (text "$A0000383012280#") __init__
  = (Ok (Some {| pressure := PyFloat (37 # 2);
                 temperature := -6;
                 battery := 20;
                 sensor_no := 4 |}),
     __init__).
Proof.
  apply (decode_fresh_frame (text "$A0000383012280#") __init__
                            3 8 3 0 1 2 2); try reflexivity.
  - exists (text "000383012280#"). reflexivity.
  - exists (text "$A0000383012280"). reflexivity.
Defined.

Lemma stale_frame_discarded_witness :
  parse_fields (text "$A0000373012280#") = Ok None
  /\ _handle_16_byte_data (text "$A0000373012280#") __init__
     = (Ok None, __init__).
Proof.
  apply (stale_frame_discarded (text "$A0000373012280#") __init__
                               3 7 3 0 1 2 2); try reflexivity.
  - exists (text "000373012280#"). reflexivity.
  - exists (text "$A0000373012280"). reflexivity.
Defined.

Lemma bad_format_rejected_witness :
  _handle_16_byte_data (text "$B0000383012280#") __init__
  = (Ok None, __init__).
Proof.
  apply bad_format_rejected; [reflexivity|].
  left. intros [rest E]. discriminate E.
Defined.

Lemma battery_is_binary_witness :
  exists c7 c8 flag_hi flag_lo,
    nth_error (text "$A0000383012280#") 7 = Some c7
    /\ nth_error (text "$A0000383012280#") 8 = Some c8
    /\ int16 [c7] = Ok flag_hi
    /\ int16 [c8] = Ok flag_lo
    /\ 20 = (if Z.testbit (flag_hi * 16 + flag_lo) 1 then 20 else 100)
    /\ (20 = 20 \/ 20 = 100).
Proof.
  apply (battery_is_binary
           (text "$A0000383012280#") __init__ __init__
           {| pressure := PyFloat (37 # 2);
              temperature := -6;
              battery := 20;
              sensor_no := 4 |}).
  reflexivity.
Defined.

Lemma filler_is_ignored_witness :
  _handle_16_byte_data (text "$A0000383012280#") __init__
  = _handle_16_byte_data (text "$A0xyz38301229!#") __init__.
Proof.
  apply filler_is_ignored; try reflexivity.
  intros i Hi. cbn in Hi.
  repeat (destruct Hi as [<-|Hi]; [reflexivity|]). destruct Hi.
Defined.

(** A minus sign in the pressure field: [int("-1f", 16)] is -31. *)
Lemma pressure_can_be_negative :
  _handle_16_byte_data (text "$A0000080-1f200#") __init__
  = (Ok (Some {| pressure := PyInt (-31);
                 temperature := 202;
                 battery := 100;
                 sensor_no := 1 |}),
     __init__)
  /\ (num_value (PyInt (-31)) < 0)%Q.
Proof. split; reflexivity. Defined.

Lemma reading_ranges_witness :
  1 <= 1 <= 16
  /\ (inject_Z (-255) <= num_value (PyInt (-31)) <= inject_Z 4095 + (1 # 2))%Q
  /\ half_steps (PyInt (-31))
  /\ ((num_value (PyInt (-31)) < 0)%Q ->
      nth_error (text "$A0000080-1f200#") 9 = Some 45
      \/ nth_error (text "$A0000080-1f200#") 10 = Some 45)
  /\ -40 <= 202 <= 215
  /\ (100 = 20 \/ 100 = 100).
Proof.
  apply (reading_ranges
           (text "$A0000080-1f200#") __init__ __init__
           {| pressure := PyInt (-31);
              temperature := 202;
              battery := 100;
              sensor_no := 1 |}).
  reflexivity.
Defined.

(** A blank at position 9 is no hex digit, and the frame is read all the
    same: [int(" 1f", 16)] is 31. *)
Lemma blank_in_pressure_field_is_read :
  nth_error (text "$A0000080 1f200#") 9 = Some 32
  /\ hex_value 32 = None
  /\ _on_data_received 0 (list_byte_of_string "$A0000080 1f200#") __init__
     = (Ok tt,
        recording __init__
                  (update_calls 0 {| pressure := PyInt 31;
                                     temperature := 202;
                                     battery := 100;
                                     sensor_no := 1 |}))
  /\ In (Update_sensor PRESSURE (Some (text "psi")) (Number (PyInt 31))
                       (text "Pressure"))
        (published
           (trace (snd (_on_data_received
                          0 (list_byte_of_string "$A0000080 1f200#")
                          __init__)))).
Proof.
  split; [reflexivity|]. split; [reflexivity|].
  split; [reflexivity|]. vm_compute. auto.
Defined.


Lemma characteristic_pair_is_kept_witness :
  notify_char (snd (_start_update tyredog
                                  (snd (_start_update tyredog __init__))))
  <> None
  /\ write_char (snd (_start_update tyredog
                                    (snd (_start_update tyredog __init__))))
     <> None.
Proof.
  apply (characteristic_pair_is_kept
           (snd (_start_update tyredog __init__)) tyredog 0 []);
    discriminate.
Defined.

(* ===================================================================== *)
(** ** Further properties: advertisements *)
(* ===================================================================== *)

Lemma str_in_spec (x : str) (l : list str) : str_in x l = true <-> In x l.
Proof.
  unfold str_in. rewrite existsb_exists. split.
  - intros (y & Hy & E). apply str_eqb_eq in E. now subst.
  - intros H. exists x. split; [exact H|]. now apply str_eqb_eq.
Qed.

Lemma matches_spec (info : service_info) :
  matches info = true
  <-> In (name info) TARGET_NAMES /\ In SERVICE_UUID (service_uuids info).
Proof.
  unfold matches. now rewrite andb_true_iff, !str_in_spec.
Qed.

Lemma recording_nil (self : session) : recording self [] = self.
Proof. destruct self. unfold recording. cbn. now rewrite app_nil_r. Qed.

(** The loop over the characteristics, in closed form: for each of the two
    UUIDs the last characteristic that carries it wins, and an attribute for
    which the list has none is left as it was. *)
Lemma record_characteristics_last (chars : list characteristic) :
  forall self : session,
    record_characteristics chars self
    = (Ok tt,
       {| notify_char :=
            or_else (last_with NOTIFY_CHARACTERISTIC_UUID chars)
                    (notify_char self);
          write_char :=
            or_else (last_with WRITE_CHARACTERISTIC_UUID chars)
                    (write_char self);
          trace := trace self |}).
Proof.
  induction chars as [|c chars IH]; intros self.
  - destruct self. reflexivity.
  - cbn [record_characteristics last_with]. unfold bind.
    destruct (str_eqb (uuid c) NOTIFY_CHARACTERISTIC_UUID) eqn:En.
    + assert (Ew : str_eqb (uuid c) WRITE_CHARACTERISTIC_UUID = false).
      { apply str_eqb_eq in En. rewrite En. reflexivity. }
      rewrite Ew. cbn [set_notify_char]. rewrite IH.
      cbn [notify_char write_char trace].
      destruct (last_with NOTIFY_CHARACTERISTIC_UUID chars);
        destruct (last_with WRITE_CHARACTERISTIC_UUID chars); reflexivity.
    + destruct (str_eqb (uuid c) WRITE_CHARACTERISTIC_UUID) eqn:Ew.
      * cbn [set_write_char]. rewrite IH.
        cbn [notify_char write_char trace].
        destruct (last_with NOTIFY_CHARACTERISTIC_UUID chars);
          destruct (last_with WRITE_CHARACTERISTIC_UUID chars); reflexivity.
      * cbn [ret]. rewrite IH.
        destruct (last_with NOTIFY_CHARACTERISTIC_UUID chars);
          destruct (last_with WRITE_CHARACTERISTIC_UUID chars); reflexivity.
Qed.

(** [_start_update] on an advertisement that matches, in closed form. *)
Lemma start_update_matching (info : service_info) (self : session) :
  matches info = true ->
  _start_update info self
  = (Ok tt,
     {| notify_char :=
          or_else (last_with NOTIFY_CHARACTERISTIC_UUID
                             (characteristics info))
                  (notify_char self);
        write_char :=
          or_else (last_with WRITE_CHARACTERISTIC_UUID
                             (characteristics info))
                  (write_char self);
        trace :=
          trace self
          ++ debug_call :: metadata_calls info
          ++ handshake_if_complete
               (or_else (last_with NOTIFY_CHARACTERISTIC_UUID
                                   (characteristics info))
                        (notify_char self))
               (or_else (last_with WRITE_CHARACTERISTIC_UUID
                                   (characteristics info))
                        (write_char self)) |}).
Proof.
  intros Hm. unfold matches in Hm. apply andb_true_iff in Hm.
  destruct Hm as [E1 E2].
  unfold _start_update. unfold bind at 1. unfold emit at 1.
  fold debug_call. rewrite E1, E2. cbn [negb].
  unfold bind, emit. rewrite !recording_app.
  rewrite record_characteristics_last.
  unfold get_notify_char, get_write_char.
  cbn [recording notify_char write_char trace].
  destruct (or_else (last_with NOTIFY_CHARACTERISTIC_UUID
                               (characteristics info)) (notify_char self))
    as [nc|] eqn:En;
    destruct (or_else (last_with WRITE_CHARACTERISTIC_UUID
                                 (characteristics info)) (write_char self))
    as [wc|] eqn:Ew; cbn [truthy andb ret handshake_if_complete];
    try (rewrite app_nil_r; reflexivity).
  match goal with
  | |- _enable_notifications_and_send_command ?s = _ =>
    rewrite (enable_notifications_run s nc wc eq_refl eq_refl)
  end.
  unfold recording. cbn [notify_char write_char trace].
  rewrite <- !app_assoc. reflexivity.
Qed.

Lemma start_update_unmatched (info : service_info) (self : session) :
  matches info = false ->
  _start_update info self = (Ok tt, recording self [debug_call]).
Proof.
  intros Em. unfold _start_update. unfold bind at 1. unfold emit at 1.
  fold debug_call.
  destruct (matches_split info Em) as [E|[E1 E2]].
  - now rewrite E.
  - now rewrite E1, E2.
Qed.

(** X1: an advertisement whose name is not one of the four target names, or
    whose service UUIDs lack the target service, is dropped after the debug
    log: no device metadata is set, neither attribute changes, whatever
    characteristics it carries, and no transport call is made. *)
Theorem unmatched_advertisement_is_ignored
        (info : service_info) (self : session) :
  ~ In (name info) TARGET_NAMES
  \/ ~ In SERVICE_UUID (service_uuids info) ->
  _start_update info self = (Ok tt, recording self [debug_call]).
Proof.
  intros H. apply start_update_unmatched.
  destruct (matches info) eqn:Em; [|reflexivity].
  apply matches_spec in Em. tauto.
Qed.

Lemma unmatched_advertisement_is_ignored_witness :
  _start_update {| name := text "tyredog";
                   service_uuids := [SERVICE_UUID];
                   characteristics := characteristics tyredog |}
                __init__
  = (Ok tt, recording __init__ [debug_call]).
Proof.
  apply unmatched_advertisement_is_ignored.
  left. cbn. intros [H|[H|[H|[H|[]]]]]; discriminate H.
Defined.

(** X2: an advertisement that matches sets the device metadata and then
    stores, for each of the notify and the write UUID, the last
    characteristic of the advertisement that carries it; an attribute for
    which it carries none keeps its value. The handshake follows, on the
    attributes as they now stand, exactly when both are set. *)
Theorem matching_advertisement_stores_last_characteristics
        (info : service_info) (self : session) :
  In (name info) TARGET_NAMES ->
  In SERVICE_UUID (service_uuids info) ->
  _start_update info self
  = (Ok tt,
     {| notify_char :=
          or_else (last_with NOTIFY_CHARACTERISTIC_UUID
                             (characteristics info))
                  (notify_char self);
        write_char :=
          or_else (last_with WRITE_CHARACTERISTIC_UUID
                             (characteristics info))
                  (write_char self);
        trace :=
          trace self
          ++ debug_call :: metadata_calls info
          ++ handshake_if_complete
               (or_else (last_with NOTIFY_CHARACTERISTIC_UUID
                                   (characteristics info))
                        (notify_char self))
               (or_else (last_with WRITE_CHARACTERISTIC_UUID
                                   (characteristics info))
                        (write_char self)) |}).
Proof.
  intros H1 H2. apply start_update_matching, matches_spec. auto.
Qed.

Lemma matching_advertisement_stores_last_characteristics_witness :
  notify_char
    (snd (_start_update
            {| name := text "JDY-08";
               service_uuids := [text "180A"; SERVICE_UUID];
               characteristics :=
                 [{| uuid := NOTIFY_CHARACTERISTIC_UUID; handle := 1 |};
                  {| uuid := text "2A29"; handle := 2 |};
                  {| uuid := NOTIFY_CHARACTERISTIC_UUID; handle := 3 |}] |}
            __init__))
  = Some {| uuid := NOTIFY_CHARACTERISTIC_UUID; handle := 3 |}.
Proof.
  rewrite matching_advertisement_stores_last_characteristics;
    [reflexivity | cbn; auto | cbn; auto].
Defined.

(** X3: the two attributes fill up across advertisements. When a first
    matching advertisement brings only the notify characteristic and a second
    one only the write characteristic, the first starts no handshake and the
    second starts it, on the characteristic kept from the first and its
    own. *)
Theorem pair_completes_across_advertisements
        (info1 info2 : service_info) (nc wc : characteristic) :
  In (name info1) TARGET_NAMES ->
  In SERVICE_UUID (service_uuids info1) ->
  In (name info2) TARGET_NAMES ->
  In SERVICE_UUID (service_uuids info2) ->
  last_with NOTIFY_CHARACTERISTIC_UUID (characteristics info1) = Some nc ->
  last_with WRITE_CHARACTERISTIC_UUID (characteristics info1) = None ->
  last_with NOTIFY_CHARACTERISTIC_UUID (characteristics info2) = None ->
  last_with WRITE_CHARACTERISTIC_UUID (characteristics info2) = Some wc ->
  process [info1; info2] __init__
  = (Ok tt,
     {| notify_char := Some nc;
        write_char := Some wc;
        trace :=
          (debug_call :: metadata_calls info1)
          ++ (debug_call :: metadata_calls info2)
          ++ handshake nc wc |}).
Proof.
  intros A1 B1 A2 B2 N1 W1 N2 W2.
  assert (M1 : matches info1 = true) by (apply matches_spec; auto).
  assert (M2 : matches info2 = true) by (apply matches_spec; auto).
  cbn [process]. unfold bind.
  rewrite (start_update_matching info1 __init__ M1).
  rewrite N1, W1. cbn [__init__ or_else notify_char write_char trace
                        handshake_if_complete].
  rewrite start_update_matching by exact M2.
  rewrite N2, W2. cbn [or_else notify_char write_char trace
                        handshake_if_complete ret].
  rewrite app_nil_r. cbn [app]. rewrite <- ?app_assoc. reflexivity.
Qed.

Lemma pair_completes_across_advertisements_witness :
  handshakes
    (trace
       (snd (process
               [{| name := text "TYREDOG";
                   service_uuids := [SERVICE_UUID];
                   characteristics :=
                     [{| uuid := NOTIFY_CHARACTERISTIC_UUID;
                         handle := 11 |}] |};
                {| name := text "RB8762";
                   service_uuids := [SERVICE_UUID];
                   characteristics :=
                     [{| uuid := WRITE_CHARACTERISTIC_UUID;
                         handle := 13 |}] |}]
               __init__)))
  = 1%nat.
Proof.
  rewrite (pair_completes_across_advertisements
             _ _
             {| uuid := NOTIFY_CHARACTERISTIC_UUID; handle := 11 |}
             {| uuid := WRITE_CHARACTERISTIC_UUID; handle := 13 |});
    try reflexivity; cbn; auto.
Defined.

(* ===================================================================== *)
(** ** Further properties: notifications *)
(* ===================================================================== *)

Section NotificationFacts.
Context {ucd : UnicodeData}.

Lemma on_data_received_calls (now : Z) (data : Py.bytes) (self : session) :
  _on_data_received now data self
  = (Ok tt, recording self (notification_calls now data)).
Proof.
  rewrite on_data_received_run. unfold notification_calls.
  destruct (decode_utf8 data) as [s|e]; [|reflexivity].
  destruct (length s =? 16)%nat; [|now rewrite recording_nil].
  destruct (negb (startswith s (text "$A0"))
            || negb (endswith s (text "#"))); [now rewrite recording_nil|].
  destruct (parse_fields s) as [[p|]|e]; try reflexivity.
  now rewrite recording_nil.
Qed.

Lemma notification_calls_shape (now : Z) (data : Py.bytes) :
  notification_calls now data = []
  \/ (exists msg e, notification_calls now data = [Log_warning msg e])
  \/ (exists p, notification_calls now data = update_calls now p).
Proof.
  unfold notification_calls.
  destruct (decode_utf8 data) as [s|e]; [|right; left; eauto].
  destruct (length s =? 16)%nat; [|auto].
  destruct (negb (startswith s (text "$A0"))
            || negb (endswith s (text "#"))); [auto|].
  destruct (parse_fields s) as [[p|]|e]; eauto.
Qed.

Lemma notification_depends_on_bytes (now : Z) (data : Py.bytes) :
  exists calls,
    (forall self,
        _on_data_received now data self = (Ok tt, recording self calls))
    /\ forallb (fun e => negb (is_transport e)) calls = true.
Proof.
  exists (notification_calls now data).
  split; [intros self; apply on_data_received_calls|].
  destruct (notification_calls_shape now data)
    as [-> | [(msg & e & ->) | (p & ->)]]; reflexivity.
Qed.

End NotificationFacts.

(** A decoded text accounts for every byte: one byte for an ASCII character,
    two to four for any other. Nothing but [UnicodeDecodeError] is raised. *)
Lemma utf8_decode_widths (n : nat) :
  forall l, (length l <= n)%nat ->
    match utf8_decode l with
    | Ok s => length l = utf8_length s
    | Raise e => e = UnicodeDecodeError
    end.
Proof.
  induction n as [|n IH]; intros l Hl.
  - destruct l; [reflexivity | cbn in Hl; lia].
  - destruct l as [|b0 r0]; [reflexivity|]. cbn [utf8_decode].
    cbn [length] in Hl.
    repeat first
           [ match goal with
             | |- context [if ?c then _ else _] => destruct c eqn:?
             end
           | match goal with
             | |- context [match ?r with [] => _ | _ :: _ => _ end] =>
               is_var r; destruct r; cbn [length] in Hl
             end ];
      try reflexivity;
      match goal with
      | |- context [utf8_decode ?r] =>
        let H := fresh in
        assert (H : (length r <= n)%nat) by (cbn [length]; lia);
        specialize (IH r H); destruct (utf8_decode r); [|exact IH]
      end;
      cbn [rbind utf8_length length]; rewrite IH; clear IH;
      match goal with
      | |- context [utf8_length ?x] => generalize (utf8_length x); intros w
      end;
      unfold utf8_width, is_cont, between in *;
      repeat match goal with
             | H : _ && _ = true |- _ => apply andb_true_iff in H; destruct H
             | H : (_ <=? _) = true |- _ => apply Z.leb_le in H
             | H : (_ <? _) = true |- _ => apply Z.ltb_lt in H
             | H : (_ <? _) = false |- _ => apply Z.ltb_ge in H
             | H : (_ =? _) = true |- _ => apply Z.eqb_eq in H
             | H : (_ =? _) = false |- _ => apply Z.eqb_neq in H
             end;
      repeat match goal with
             | |- context [?a <? ?b] => destruct (Z.ltb_spec a b)
             end; lia.
Qed.

Lemma decode_utf8_length (data : Py.bytes) (s : str) :
  decode_utf8 data = Ok s -> length data = utf8_length s.
Proof.
  unfold decode_utf8. intros E.
  pose proof (utf8_decode_widths _ (map byte_val data) (le_n _)) as H.
  rewrite E, length_map in H. exact H.
Qed.

Lemma decode_utf8_raises (data : Py.bytes) (e : exn) :
  decode_utf8 data = Raise e -> e = UnicodeDecodeError.
Proof.
  unfold decode_utf8. intros E.
  pose proof (utf8_decode_widths _ (map byte_val data) (le_n _)) as H.
  now rewrite E in H.
Qed.

Lemma utf8_width_range (c : Z) : (1 <= utf8_width c <= 4)%nat.
Proof.
  unfold utf8_width.
  repeat match goal with
         | |- context [?a <? ?b] => destruct (a <? b)
         end; lia.
Qed.

(** ASCII bytes decode to themselves. *)
Lemma utf8_decode_ascii (l : list Z) :
  Forall (fun c => c < 128) l -> utf8_decode l = Ok l.
Proof.
  induction 1 as [|c l Hc _ IH]; [reflexivity|].
  cbn [utf8_decode]. apply Z.ltb_lt in Hc. now rewrite Hc, IH.
Qed.

Section NotificationClaims.
Context {ucd : UnicodeData}.

(** On a 16-character text [parse_fields] raises nothing but [ValueError]:
    every index is in range and [byte2flag] is called with a bit that is not
    negative. *)
Lemma parse_fields_16_raises (s : str) (e : exn) :
  length s = 16%nat -> parse_fields s = Raise e -> e = ValueError.
Proof.
  intros Hlen. explode16 s Hlen. rewrite parse_fields_16.
  repeat match goal with
         | |- context [rbind (int16 ?x)] =>
           let E := fresh "E" in
           destruct (int16 x) eqn:E; cbn [rbind];
           [|apply int16_raises in E; intros H; inversion H; congruence]
         | |- context [byte2flag ?a ?b ?c] =>
           rewrite (byte2flag_testbit a b c) by lia; cbn [rbind]
         | |- context [if negb ?c then _ else _] => destruct c; cbn [negb]
         end; discriminate.
Qed.

(** The format test on a text of 16 characters, spelled out. *)
Lemma format_guard_16
      (c0 c1 c2 c3 c4 c5 c6 c7 c8 c9 c10 c11 c12 c13 c14 c15 : Z) :
  negb (startswith [c0; c1; c2; c3; c4; c5; c6; c7; c8; c9; c10; c11; c12;
                    c13; c14; c15] (text "$A0"))
  || negb (endswith [c0; c1; c2; c3; c4; c5; c6; c7; c8; c9; c10; c11; c12;
                     c13; c14; c15] (text "#")) = false ->
  c0 = 36 /\ c1 = 65 /\ c2 = 48 /\ c15 = 35.
Proof.
  intros H. apply orb_false_iff in H. destruct H as [Hp Hs].
  apply negb_false_iff in Hp. apply negb_false_iff in Hs.
  cbn in Hp, Hs.
  repeat match goal with
         | H : _ && _ = true |- _ => apply andb_true_iff in H; destruct H
         | H : (_ =? _) = true |- _ => apply Z.eqb_eq in H
         end.
  auto.
Qed.

(** X4: what a notification adds to the recorded calls is a function of its
    bytes and of the clock, whatever the instance has seen before: nothing,
    or one warning, or the calls of one reading. A frame that is turned down
    therefore leaves no mark on the frames that follow, and a notification
    never starts a transport call. *)
Theorem notification_depends_on_its_bytes_only (now : Z) (data : Py.bytes) :
  exists calls,
    (forall self,
        _on_data_received now data self = (Ok tt, recording self calls))
    /\ (calls = []
        \/ (exists msg e, calls = [Log_warning msg e])
        \/ (exists p, calls = update_calls now p))
    /\ forallb (fun e => negb (is_transport e)) calls = true.
Proof.
  exists (notification_calls now data).
  split; [intros self; apply on_data_received_calls|].
  pose proof (notification_calls_shape now data) as Hs.
  split; [exact Hs|].
  destruct Hs as [-> | [(msg & e & ->) | (p & ->)]]; reflexivity.
Qed.

(** X5: a warning is logged for a notification in two cases and no other:
    the bytes are not UTF-8 (the exception is [UnicodeDecodeError]), or the
    text has 16 characters, the [$A0] prefix and the [#] suffix and one of its
    fields does not parse (the exception is [ValueError]). A text of another
    length, a text without the prefix or the suffix, and a stale frame are
    dropped without a word. *)
Theorem warning_logged_iff (now : Z) (data : Py.bytes) (self : session)
        (msg : str) (e : exn) :
  _on_data_received now data self
  = (Ok tt, recording self [Log_warning msg e])
  <-> (msg = text "Failed to decode: %s"
       /\ e = UnicodeDecodeError
       /\ decode_utf8 data = Raise UnicodeDecodeError)
      \/ (msg = text "Error parsing 16-byte data: %s"
          /\ e = ValueError
          /\ exists s,
              decode_utf8 data = Ok s
              /\ length s = 16%nat
              /\ has_prefix (text "$A0") s
              /\ has_suffix (text "#") s
              /\ parse_fields s = Raise ValueError).
Proof.
  rewrite on_data_received_calls. split.
  - intros H. inversion H as [Ht]. apply app_inv_head in Ht. clear H.
    unfold notification_calls in Ht.
    destruct (decode_utf8 data) as [s|e0] eqn:Ed.
    + destruct (Nat.eqb_spec (length s) 16) as [Hlen|Hlen];
        [|discriminate Ht].
      destruct (startswith s (text "$A0")) eqn:Ep;
        [|discriminate Ht].
      destruct (endswith s (text "#")) eqn:Es; [|discriminate Ht].
      cbn [negb orb] in Ht.
      destruct (parse_fields s) as [[p|]|e0] eqn:Epf;
        try discriminate Ht.
      inversion Ht; subst. right.
      pose proof (parse_fields_16_raises s e Hlen Epf). subst e.
      split; [reflexivity|]. split; [reflexivity|].
      exists s. apply startswith_spec in Ep. apply endswith_spec in Es.
      auto.
    + inversion Ht; subst. left.
      pose proof (decode_utf8_raises data e Ed). subst e. auto.
  - unfold notification_calls.
    intros [(-> & -> & ->) | (-> & -> & s & -> & Hlen & Hp & Hs & ->)];
      [reflexivity|].
    apply startswith_spec in Hp. apply endswith_spec in Hs.
    rewrite Hlen, Hp, Hs. reflexivity.
Qed.

End NotificationClaims.

Lemma warning_logged_iff_witness :
  _on_data_received 0 (list_byte_of_string "$A0000g83012280#") __init__
  = (Ok tt,
     recording __init__
               [Log_warning (text "Error parsing 16-byte data: %s")
                            ValueError]).
Proof.
  apply warning_logged_iff. right.
  split; [reflexivity|]. split; [reflexivity|].
  exists (text "$A0000g83012280#").
  split; [reflexivity|]. split; [reflexivity|].
  split; [exists (text "000g83012280#"); reflexivity|].
  split; [exists (text "$A0000g83012280"); reflexivity|reflexivity].
Defined.

(* ===================================================================== *)
(** ** Further properties: from bytes to readings *)
(* ===================================================================== *)

Section ByteFacts.
Context {ucd : UnicodeData}.

(** The fields of a fresh frame, at the level of the [try] body. *)
Lemma parse_fields_fresh (data : str) (d6 d7 d8 d9 d10 d11 d12 : Z) :
  length data = 16%nat ->
  hex_at data 6 = Some d6 ->
  hex_at data 7 = Some d7 ->
  hex_at data 8 = Some d8 ->
  hex_at data 9 = Some d9 ->
  hex_at data 10 = Some d10 ->
  hex_at data 11 = Some d11 ->
  hex_at data 12 = Some d12 ->
  Z.testbit (d7 * 16 + d8) 7 = true ->
  parse_fields data
  = Ok (Some {| pressure :=
                  if Z.testbit (d7 * 16 + d8) 0
                  then add_float (d9 * 256 + d10 * 16 + d11) (1 # 2)
                  else PyInt (d9 * 256 + d10 * 16 + d11);
                temperature := d11 * 16 + d12 - 40;
                battery := if Z.testbit (d7 * 16 + d8) 1 then 20 else 100;
                sensor_no := d6 + 1 |}).
Proof.
  intros Hlen H6 H7 H8 H9 H10 H11 H12 Hfresh.
  explode16 data Hlen.
  repeat rewrite hex_at_cons in *. rewrite hex_at_here in *.
  rewrite parse_fields_16.
  rewrite (int16_hex1 _ _ H6), (int16_hex1 _ _ H7), (int16_hex1 _ _ H8).
  cbn [rbind]. rewrite !byte2flag_testbit by lia. cbn [rbind].
  rewrite Hfresh. cbn [negb].
  rewrite (int16_hex3 _ _ _ _ _ _ H9 H10 H11), (int16_hex2 _ _ _ _ H11 H12).
  reflexivity.
Qed.

(** X6: a reading is only ever published for a notification of 16 to 52
    bytes: 16 characters, of which the prefix and the suffix take one byte
    each and no other takes more than four. *)
Theorem reading_needs_16_to_52_bytes (now : Z) (data : Py.bytes)
        (self : session) :
  published (trace (snd (_on_data_received now data self)))
  <> published (trace self) ->
  (16 <= length data <= 52)%nat.
Proof.
  rewrite on_data_received_calls. cbn [snd recording trace].
  rewrite published_app. intros Hpub.
  assert (Hne : published (notification_calls now data) <> []).
  { intros E. apply Hpub. rewrite E. apply app_nil_r. }
  clear Hpub. unfold notification_calls in Hne.
  destruct (decode_utf8 data) as [s|e] eqn:Ed;
    [|exfalso; apply Hne; reflexivity].
  apply decode_utf8_length in Ed. rewrite Ed. clear Ed.
  destruct (Nat.eqb_spec (length s) 16) as [Hlen|Hlen];
    [|exfalso; apply Hne; reflexivity].
  destruct (negb (startswith s (text "$A0"))
            || negb (endswith s (text "#"))) eqn:Eg;
    [exfalso; apply Hne; reflexivity|].
  clear Hne. explode16 s Hlen.
  apply format_guard_16 in Eg. destruct Eg as (-> & -> & -> & ->).
  cbn [utf8_length].
  change (utf8_width 36) with 1%nat. change (utf8_width 65) with 1%nat.
  change (utf8_width 48) with 1%nat. change (utf8_width 35) with 1%nat.
  repeat match goal with
         | |- context [utf8_width ?c] =>
           is_var c; pose proof (utf8_width_range c);
           generalize dependent (utf8_width c); intros
         end.
  lia.
Qed.

(** X7: end to end on ASCII bytes. A notification of 16 ASCII bytes with the
    [$A0] prefix, the [#] suffix, hex digits d6 to d12 in bytes 6 to 12 and
    bit 7 set in the flags byte publishes exactly one reading: the device
    type and the title become [TPMS Sensor] and the sensor number, and the
    pressure, temperature, battery and timestamp sensors are updated in this
    order with the decoded values and the clock. Nothing is logged. *)
Theorem ascii_notification_is_published (now : Z) (data : Py.bytes)
        (self : session) (d6 d7 d8 d9 d10 d11 d12 : Z) :
  length data = 16%nat ->
  Forall (fun b => byte_val b < 128) data ->
  has_prefix (text "$A0") (map byte_val data) ->
  has_suffix (text "#") (map byte_val data) ->
  hex_at (map byte_val data) 6 = Some d6 ->
  hex_at (map byte_val data) 7 = Some d7 ->
  hex_at (map byte_val data) 8 = Some d8 ->
  hex_at (map byte_val data) 9 = Some d9 ->
  hex_at (map byte_val data) 10 = Some d10 ->
  hex_at (map byte_val data) 11 = Some d11 ->
  hex_at (map byte_val data) 12 = Some d12 ->
  Z.testbit (d7 * 16 + d8) 7 = true ->
  _on_data_received now data self
  = (Ok tt,
     recording self
       (update_calls now
          {| pressure :=
               if Z.testbit (d7 * 16 + d8) 0
               then add_float (d9 * 256 + d10 * 16 + d11) (1 # 2)
               else PyInt (d9 * 256 + d10 * 16 + d11);
             temperature := d11 * 16 + d12 - 40;
             battery := if Z.testbit (d7 * 16 + d8) 1 then 20 else 100;
             sensor_no := d6 + 1 |})).
Proof.
  intros Hlen Hascii Hp Hs H6 H7 H8 H9 H10 H11 H12 Hfresh.
  rewrite on_data_received_run.
  assert (Ed : decode_utf8 data = Ok (map byte_val data)).
  { apply utf8_decode_ascii. now apply Forall_map. }
  rewrite Ed, length_map, Hlen. cbn [Nat.eqb].
  apply startswith_spec in Hp. apply endswith_spec in Hs.
  rewrite Hp, Hs. cbn [negb orb].
  rewrite (parse_fields_fresh _ d6 d7 d8 d9 d10 d11 d12); trivial.
  now rewrite length_map.
Qed.

(** X8: called on a text of any length, [_handle_16_byte_data] returns
    normally, and it returns a reading only if the text has at least 14
    characters: the check for 16 is left to the caller. *)
Theorem handle_16_byte_data_needs_14_characters
        (data : str) (self : session) :
  exists r self',
    _handle_16_byte_data data self = (Ok r, self')
    /\ (r <> None -> (14 <= length data)%nat).
Proof.
  destruct (_handle_16_byte_data data self) as [res self'] eqn:E.
  pose proof E as E'. rewrite handle_16_byte_data_run in E'.
  assert (Hok : exists r, res = Ok r).
  { destruct (negb (startswith data (text "$A0"))
              || negb (endswith data (text "#")));
      [inversion E'; eauto|].
    destruct (parse_fields data); inversion E'; eauto. }
  destruct Hok as [r ->]. exists r, self'. split; [reflexivity|].
  intros Hr. destruct r as [p|]; [|congruence]. clear Hr E'.
  apply handle_16_byte_data_some in E.
  destruct E as (_ & [init Hs] & Hp & _).
  apply parse_fields_some in Hp.
  destruct Hp as (c6 & c7 & c8 & c9 & c10 & c11 & tail & n6 & hi & lo
                  & pr & t & Hdata & _ & _ & _ & _ & Hpr & Ht & _).
  assert (Hsharp : char_token 35 = TOther) by reflexivity.
  assert (Hsplit : data = firstn 6 data
                          ++ c6 :: c7 :: c8 :: c9 :: c10 :: c11 :: tail).
  { rewrite <- Hdata. symmetry. apply firstn_skipn. }
  assert (H6 : length (firstn 6 data) = 6%nat).
  { apply firstn_length_le.
    assert (length (skipn 6 data) = (length data - 6)%nat)
      by apply length_skipn.
    rewrite Hdata in H. cbn [length] in H. lia. }
  destruct tail as [|c12 [|c13 tail]].
  - exfalso.
    assert (E : (firstn 6 data ++ [c6; c7; c8; c9; c10]) ++ [c11]
                = init ++ [35]).
    { transitivity data; [|exact Hs].
      rewrite <- app_assoc. exact (eq_sym Hsplit). }
    apply app_inj_tail in E. destruct E as [_ ->].
    rewrite (int16_foreign _ 35) in Hpr; cbn; auto. discriminate.
  - exfalso.
    assert (E : (firstn 6 data ++ [c6; c7; c8; c9; c10; c11]) ++ [c12]
                = init ++ [35]).
    { transitivity data; [|exact Hs].
      rewrite <- app_assoc. exact (eq_sym Hsplit). }
    apply app_inj_tail in E. destruct E as [_ ->].
    cbn [firstn] in Ht.
    rewrite (int16_foreign _ 35) in Ht; cbn; auto. discriminate.
  - rewrite Hsplit, length_app, H6. cbn [length]. lia.
Qed.

End ByteFacts.

Lemma reading_needs_16_to_52_bytes_witness :
  (16 <= length (list_byte_of_string "$A0000383012280#") <= 52)%nat.
Proof.
  apply (reading_needs_16_to_52_bytes
           0 (list_byte_of_string "$A0000383012280#") __init__).
  vm_compute. discriminate.
Defined.

Lemma ascii_notification_is_published_witness :
  _on_data_received 1700000000 (list_byte_of_string "$A0000383012280#")
                    __init__
  = (Ok tt,
     recording __init__
               (update_calls 1700000000
                             {| pressure := PyFloat (37 # 2);
                                temperature := -6;
                                battery := 20;
                                sensor_no := 4 |})).
Proof.
  apply (ascii_notification_is_published
           1700000000 (list_byte_of_string "$A0000383012280#") __init__
           3 8 3 0 1 2 2); try reflexivity.
  - repeat constructor.
  - exists (text "000383012280#"). reflexivity.
  - exists (text "$A0000383012280"). reflexivity.
Defined.

(* ===================================================================== *)
(** ** Further properties: flags and fields *)
(* ===================================================================== *)

(** X9: [byte2flag] on any integers. For a bit position that is not negative
    it returns that bit of [byte1 * 16 + byte0] (in two's complement for a
    negative value), so every position from 8 on is [False] for a byte; for
    a negative position the loop body never runs and the [return] finds [val]
    unbound. *)
Theorem byte2flag_on_any_integers (byte1 byte0 bit : Z) :
  (0 <= bit ->
   byte2flag byte1 byte0 bit = Ok (Z.testbit (byte1 * 16 + byte0) bit))
  /\ (0 <= byte1 * 16 + byte0 < 256 -> 8 <= bit ->
      byte2flag byte1 byte0 bit = Ok false)
  /\ (bit < 0 -> byte2flag byte1 byte0 bit = Raise UnboundLocalError).
Proof.
  split; [apply byte2flag_testbit|]. split.
  - intros Hb Hbit. rewrite byte2flag_testbit by lia. f_equal.
    set (x := byte1 * 16 + byte0) in *.
    destruct (Z.eq_dec x 0) as [->|Hx]; [apply Z.testbit_0_l|].
    apply Z.bits_above_log2; [lia|].
    assert (Z.log2 x < 8) by (apply Z.log2_lt_pow2; lia). lia.
  - intros Hneg. unfold byte2flag.
    replace (Z.to_nat (bit + 1)) with 0%nat by lia. reflexivity.
Qed.

Lemma byte2flag_on_any_integers_witness :
  byte2flag 8 3 9 = Ok false
  /\ byte2flag (-1) 15 63 = Ok true
  /\ byte2flag 8 3 (-1) = Raise UnboundLocalError.
Proof.
  split; [apply (byte2flag_on_any_integers 8 3 9); lia|].
  split; [apply (byte2flag_on_any_integers (-1) 15 63); lia|].
  apply (byte2flag_on_any_integers 8 3 (-1)); lia.
Defined.

Section FieldFacts.
Context {ucd : UnicodeData}.

(** [_handle_16_byte_data] looks at its text through the two format tests
    and the [try] body. *)
Lemma handle_16_byte_data_cong (d1 d2 : str) (self : session) :
  startswith d1 (text "$A0") = startswith d2 (text "$A0") ->
  endswith d1 (text "#") = endswith d2 (text "#") ->
  parse_fields d1 = parse_fields d2 ->
  _handle_16_byte_data d1 self = _handle_16_byte_data d2 self.
Proof.
  intros E1 E2 E3. rewrite !handle_16_byte_data_run.
  now rewrite E1, E2, E3.
Qed.

(** X10: of the flags byte only bits 0, 1 and 7 are read. Two 16-character
    texts that differ at most in the two flag digits, and whose flags bytes
    agree on these three bits, are decoded alike. *)
Theorem unused_flag_bits_are_ignored (d1 d2 : str) (self : session)
        (h1 l1 h2 l2 : Z) :
  length d1 = 16%nat ->
  length d2 = 16%nat ->
  (forall i, i <> 7%nat -> i <> 8%nat -> nth_error d1 i = nth_error d2 i) ->
  hex_at d1 7 = Some h1 ->
  hex_at d1 8 = Some l1 ->
  hex_at d2 7 = Some h2 ->
  hex_at d2 8 = Some l2 ->
  (forall b, In b [0; 1; 7] ->
             Z.testbit (h1 * 16 + l1) b = Z.testbit (h2 * 16 + l2) b) ->
  _handle_16_byte_data d1 self = _handle_16_byte_data d2 self.
Proof.
  intros L1 L2 Hagree A7 A8 B7 B8 Hbits.
  assert (F : Forall (fun i => nth_error d1 i = nth_error d2 i)
                     [0; 1; 2; 3; 4; 5; 6; 9; 10; 11; 12; 13; 14; 15]%nat).
  { apply Forall_forall. intros i Hi. apply Hagree; intros ->; cbn in Hi;
      repeat (destruct Hi as [Hi|Hi]; [discriminate Hi|]); destruct Hi. }
  clear Hagree. explode16 d1 L1. explode16 d2 L2.
  repeat match goal with
         | H : Forall _ (_ :: _) |- _ => inversion_clear H
         end.
  cbn [nth_error] in *.
  repeat match goal with
         | H : Some _ = Some _ |- _ => inversion H; clear H
         end.
  subst. repeat rewrite hex_at_cons in *. rewrite hex_at_here in *.
  apply handle_16_byte_data_cong; try reflexivity.
  rewrite !parse_fields_16.
  rewrite (int16_hex1 _ _ A7), (int16_hex1 _ _ A8), (int16_hex1 _ _ B7),
    (int16_hex1 _ _ B8).
  match goal with
  | |- context [rbind (int16 ?x)] => destruct (int16 x)
  end; cbn [rbind]; [|reflexivity].
  rewrite !byte2flag_testbit by lia. cbn [rbind].
  rewrite (Hbits 0), (Hbits 1), (Hbits 7) by (cbn; auto).
  reflexivity.
Qed.

End FieldFacts.

Lemma unused_flag_bits_are_ignored_witness :
  _handle_16_byte_data (text "$A0000383012280#") __init__
  = _handle_16_byte_data (text "$A00003ff012280#") __init__.
Proof.
  apply (unused_flag_bits_are_ignored
           (text "$A0000383012280#") (text "$A00003ff012280#") __init__
           8 3 15 15); try reflexivity.
  - intros i H7 H8.
    do 17 (destruct i as [|i]; [first [reflexivity | congruence]|]).
    reflexivity.
  - intros b Hb. cbn in Hb.
    repeat (destruct Hb as [<-|Hb]; [reflexivity|]). destruct Hb.
Defined.

Section SharedDigit.
Context {ucd : UnicodeData}.

(** X11: position 11 is read twice, as the last digit of the pressure and
    as the first digit of the temperature. In every reading decoded from hex
    digits at positions 9 to 12 the two are therefore tied: the whole part
    of the pressure, modulo 16, is the temperature plus 40, divided by 16. *)
Theorem pressure_and_temperature_share_a_digit
        (data : str) (self self' : session) (r : parsed)
        (d9 d10 d11 d12 : Z) :
  _handle_16_byte_data data self = (Ok (Some r), self') ->
  hex_at data 9 = Some d9 ->
  hex_at data 10 = Some d10 ->
  hex_at data 11 = Some d11 ->
  hex_at data 12 = Some d12 ->
  exists p,
    (pressure r = PyInt p \/ pressure r = add_float p (1 # 2))
    /\ p mod 16 = d11
    /\ (temperature r + 40) / 16 = d11.
Proof.
  intros H H9 H10 H11 H12. apply handle_16_byte_data_some in H.
  destruct H as (_ & _ & H & _). apply parse_fields_some in H.
  destruct H as (c6 & c7 & c8 & c9 & c10 & c11 & tail & n6 & hi & lo & p
                 & t & Hdata & _ & _ & _ & _ & Hp & Ht & ->).
  assert (Hn : forall k, nth_error data (6 + k)
                         = nth_error (c6 :: c7 :: c8 :: c9 :: c10 :: c11
                                         :: tail) k).
  { intros k. rewrite <- Hdata. symmetry. apply nth_error_skipn. }
  unfold hex_at in H9, H10, H11, H12.
  change 9%nat with (6 + 3)%nat in H9.
  change 10%nat with (6 + 4)%nat in H10.
  change 11%nat with (6 + 5)%nat in H11.
  change 12%nat with (6 + 6)%nat in H12.
  rewrite Hn in H9, H10, H11, H12. cbn [nth_error] in H9, H10, H11, H12.
  destruct tail as [|c12 tail]; [discriminate H12|].
  cbn [nth_error firstn] in H12, Ht.
  rewrite (int16_hex3 _ _ _ _ _ _ H9 H10 H11) in Hp.
  rewrite (int16_hex2 _ _ _ _ H11 H12) in Ht.
  inversion Hp; inversion Ht; subst. clear Hp Ht.
  apply hex_value_range in H9, H10, H11, H12.
  exists (d9 * 256 + d10 * 16 + d11). cbn [pressure temperature].
  split; [destruct (Z.testbit (hi * 16 + lo) 0); auto|].
  split.
  - symmetry. apply (Z.mod_unique _ _ (d9 * 16 + d10)); lia.
  - replace (d11 * 16 + d12 - 40 + 40) with (d12 + d11 * 16) by lia.
    rewrite Z.div_add by lia. rewrite Z.div_small by lia. lia.
Qed.

End SharedDigit.

Lemma pressure_and_temperature_share_a_digit_witness :
  exists p,
    (PyFloat (37 # 2) = PyInt p \/ PyFloat (37 # 2) = add_float p (1 # 2))
    /\ p mod 16 = 2
    /\ (-6 + 40) / 16 = 2.
Proof.
  apply (pressure_and_temperature_share_a_digit
           (text "$A0000383012280#") __init__ __init__
           {| pressure := PyFloat (37 # 2);
              temperature := -6;
              battery := 20;
              sensor_no := 4 |} 0 1 2 2); reflexivity.
Defined.

(* ===================================================================== *)
(** ** Further properties: a whole session *)
(* ===================================================================== *)

Lemma last_with_uuid (u : str) (chars : list characteristic)
      (c : characteristic) :
  last_with u chars = Some c -> uuid c = u.
Proof.
  induction chars as [|c0 chars IH]; [discriminate|].
  cbn [last_with]. destruct (last_with u chars) as [c'|].
  - intros E. inversion E; subst. now apply IH.
  - destruct (str_eqb (uuid c0) u) eqn:Eu; [|discriminate].
    intros E. inversion E; subst. now apply str_eqb_eq.
Qed.

Lemma session_ok_recording (self : session) (calls : list event) :
  session_ok self -> Forall well_addressed calls ->
  session_ok (recording self calls).
Proof.
  intros (Hn & Hw & Ht) Hc. unfold session_ok.
  cbn [recording notify_char write_char trace].
  repeat split; trivial. apply Forall_app. auto.
Qed.

Lemma start_update_ok (info : service_info) (self : session) :
  session_ok self ->
  exists self', _start_update info self = (Ok tt, self') /\ session_ok self'.
Proof.
  intros (Hn & Hw & Ht).
  destruct (matches info) eqn:Em.
  - rewrite (start_update_matching info self Em). eexists.
    split; [reflexivity|].
    assert (Hn' : forall c,
               or_else (last_with NOTIFY_CHARACTERISTIC_UUID
                                  (characteristics info))
                       (notify_char self) = Some c ->
               uuid c = NOTIFY_CHARACTERISTIC_UUID).
    { intros c.
      destruct (last_with NOTIFY_CHARACTERISTIC_UUID (characteristics info))
        eqn:E; cbn [or_else]; [|apply Hn].
      intros E'. inversion E'; subst. eapply last_with_uuid, E. }
    assert (Hw' : forall c,
               or_else (last_with WRITE_CHARACTERISTIC_UUID
                                  (characteristics info))
                       (write_char self) = Some c ->
               uuid c = WRITE_CHARACTERISTIC_UUID).
    { intros c.
      destruct (last_with WRITE_CHARACTERISTIC_UUID (characteristics info))
        eqn:E; cbn [or_else]; [|apply Hw].
      intros E'. inversion E'; subst. eapply last_with_uuid, E. }
    unfold session_ok. cbn [notify_char write_char trace].
    split; [exact Hn'|]. split; [exact Hw'|].
    apply Forall_app. split; [exact Ht|].
    constructor; [exact I|]. apply Forall_app. split.
    + repeat constructor.
    + destruct (or_else (last_with NOTIFY_CHARACTERISTIC_UUID
                                   (characteristics info))
                        (notify_char self)) as [nc|];
        [|constructor].
      destruct (or_else (last_with WRITE_CHARACTERISTIC_UUID
                                   (characteristics info))
                        (write_char self)) as [wc|];
        [|constructor].
      cbn [handshake_if_complete]. unfold handshake.
      pose proof (Hn' nc eq_refl). pose proof (Hw' wc eq_refl).
      repeat constructor; assumption.
  - rewrite (start_update_unmatched info self Em). eexists.
    split; [reflexivity|].
    apply session_ok_recording; [repeat split; assumption|].
    repeat constructor.
Qed.

Lemma untransported_well_addressed (calls : list event) :
  forallb (fun e => negb (is_transport e)) calls = true ->
  Forall well_addressed calls.
Proof.
  rewrite forallb_forall. intros H. apply Forall_forall. intros e He.
  specialize (H e He). destruct e; try exact I; discriminate H.
Qed.


(* ===================================================================== *)
(** ** The handshake, call by call *)
(* ===================================================================== *)






(* ===================================================================== *)
(** ** The format test gives no reason *)
(* ===================================================================== *)

(** A text with a wrong prefix is returned as the bare [None] that a stale
    frame gets, with nothing logged: the caller is told no reason. *)
Lemma format_rejection_is_not_reported :
  _handle_16_byte_data (text "$B0000383012280#") __init__
  = (Ok None, __init__)
  /\ _handle_16_byte_data (text "$B0000383012280#") __init__
     = _handle_16_byte_data (text "$A0000373012280#") __init__
  /\ trace (snd (_on_data_received
                   0 (list_byte_of_string "$B0000383012280#") __init__))
     = [].
Proof. repeat split; reflexivity. Defined.

(* ===================================================================== *)
(** ** Characters that are no hex digits *)
(* ===================================================================== *)

Section ForeignCharacters.
Context {ucd : UnicodeData}.

Lemma int16_one_digit (a v : Z) :
  int16 [a] = Ok v -> digit_to_int a = true.
Proof.
  intros E. rewrite int16_tokens in E. cbn [map] in E.
  pose proof (int16_one a) as H. unfold literal1_ok in H. rewrite E in H.
  unfold digit_to_int. now destruct (is_digit (char_token a)).
Qed.

Lemma int16_three_head (a b c : Z) (v : Z) :
  int16 [a; b; c] = Ok v -> literal_head (char_token a) = true.
Proof.
  intros E. rewrite int16_tokens in E. cbn [map] in E.
  assert (H : forallb
                (fun x =>
                   forallb (fun y => forallb (literal3_head_ok x y)
                                             all_tokens) all_tokens)
                all_tokens = true) by (vm_compute; reflexivity).
  rewrite forallb_forall in H.
  specialize (H _ (char_token_in a)). rewrite forallb_forall in H.
  specialize (H _ (char_token_in b)). rewrite forallb_forall in H.
  specialize (H _ (char_token_in c)). unfold literal3_head_ok in H.
  now rewrite E in H.
Qed.

Lemma int16_two_tail (a b : Z) (v : Z) :
  int16 [a; b] = Ok v -> digit_or_space (char_token b) = true.
Proof.
  intros E. rewrite int16_tokens in E. cbn [map] in E.
  assert (H : forallb (fun x => forallb (literal2_tail_ok x) all_tokens)
                      all_tokens = true) by (vm_compute; reflexivity).
  rewrite forallb_forall in H.
  specialize (H _ (char_token_in a)). rewrite forallb_forall in H.
  specialize (H _ (char_token_in b)). unfold literal2_tail_ok in H.
  now rewrite E in H.
Qed.

Lemma int16_three_middle (a b c : Z) (v : Z) :
  int16 [a; b; c] = Ok v -> char_token b <> TOther.
Proof.
  intros E Hb. rewrite (int16_foreign _ b) in E; cbn; auto. discriminate.
Qed.

(** A reading of a 16-character text needs, at each of the positions 6 to
    12, a digit or a character that [int] lets stand there. *)
Lemma reading_needs_literal_characters (s : str) (p : parsed)
      (i : nat) (c : Z) :
  length s = 16%nat ->
  parse_fields s = Ok (Some p) ->
  (6 <= i <= 12)%nat ->
  nth_error s i = Some c ->
  digit_to_int c = true \/ tolerated_at i c = true.
Proof.
  intros Hlen Hp Hi Hc. explode16 s Hlen.
  rewrite parse_fields_16 in Hp.
  do 3 rbind_inv Hp.
  rewrite !byte2flag_testbit in Hp by lia. cbn [rbind] in Hp.
  match type of Hp with
  | context [negb ?f] => destruct f; cbn [negb] in Hp; [|discriminate Hp]
  end.
  repeat rbind_inv Hp.
  repeat match goal with
         | H : int16 [_] = Ok _ |- _ => apply int16_one_digit in H
         end.
  match goal with
  | H3 : int16 [?a; ?b; ?c] = Ok _, H2 : int16 [?c; ?d] = Ok _ |- _ =>
    pose proof (int16_three_head _ _ _ _ H3) as Hhead;
      pose proof (int16_three_middle _ _ _ _ H3) as Hmid;
      apply int16_three_range in H3; destruct H3 as (_ & _ & Hlast);
      apply int16_two_tail in H2
  end.
  unfold digit_to_int, tolerated_at in *.
  assert (Hcases : (i = 6 \/ i = 7 \/ i = 8 \/ i = 9 \/ i = 10
                    \/ i = 11 \/ i = 12)%nat) by lia.
  destruct Hcases as [->|[->|[->|[->|[->|[->| ->]]]]]];
    cbn [nth_error] in Hc; inversion Hc; subst; cbn [Nat.leb Nat.eqb];
      try (left; assumption);
      match goal with
      | |- context [char_token ?x] =>
        destruct (char_token x); cbn in *; auto; try discriminate;
          congruence
      end.
Qed.

(** C5, amended: on every byte sequence the notification handler returns
    normally. Bytes that are not UTF-8 publish no reading; text that is not
    16 characters long changes nothing at all; a character at one of the
    positions 6 to 12 that is no digit to [int] publishes no reading, unless
    it is one of the characters that [int] lets stand at that position
    (white space at 9 to 12, a sign at 9 or 10, an underscore or an x at 10);
    and whenever the parsing of any field raises, no reading is published.
    Among the ASCII characters the digits to [int] are exactly the hex
    digits, and the characters let stand are among white space, the signs,
    the underscore and the letter x. *)
Theorem notification_never_raises (now : Z) (data : Py.bytes)
        (self : session) :
  exists self',
    _on_data_received now data self = (Ok tt, self')
    /\ (forall e, decode_utf8 data = Raise e ->
                  published (trace self') = published (trace self))
    /\ (forall s, decode_utf8 data = Ok s -> length s <> 16%nat ->
                  self' = self)
    /\ (forall s i c,
           decode_utf8 data = Ok s ->
           (6 <= i <= 12)%nat ->
           nth_error s i = Some c ->
           digit_to_int c = false ->
           tolerated_at i c = false ->
           published (trace self') = published (trace self))
    /\ (forall s e, decode_utf8 data = Ok s -> parse_fields s = Raise e ->
                    published (trace self') = published (trace self))
    /\ (forall i c, c <= 127 ->
                    (digit_to_int c = false <-> hex_value c = None)
                    /\ (tolerated_at i c = true -> literal_char c = true)).
Proof.
  rewrite on_data_received_run.
  assert (Hlog : forall msg e,
             published (trace (recording self [Log_warning msg e]))
             = published (trace self)).
  { intros msg e. cbn [recording trace]. rewrite published_app. cbn.
    apply app_nil_r. }
  assert (Hascii : forall (i : nat) c, c <= 127 ->
             (digit_to_int c = false <-> hex_value c = None)
             /\ (tolerated_at i c = true -> literal_char c = true)).
  { intros i c Hc. split.
    - split.
      + intros Hd. destruct (hex_value c) as [v|] eqn:Hh; [|reflexivity].
        unfold digit_to_int in Hd. rewrite (char_token_hex _ _ Hh) in Hd.
        discriminate Hd.
      + apply char_token_not_hex, Hc.
    - intros Ht. destruct (literal_char c) eqn:Hl; [reflexivity|].
      destruct (hex_value c) as [v|] eqn:Hh.
      + unfold tolerated_at in Ht. rewrite (char_token_hex _ _ Hh) in Ht.
        discriminate Ht.
      + unfold tolerated_at in Ht.
        rewrite (char_token_foreign c Hc Hh Hl) in Ht. discriminate Ht. }
  destruct (decode_utf8 data) as [s|e] eqn:Ed.
  - destruct (Nat.eqb_spec (length s) 16) as [Hlen|Hlen].
    + destruct (negb (startswith s (text "$A0"))
                || negb (endswith s (text "#"))) eqn:Eg.
      * exists self. repeat split; trivial; apply Hascii; assumption.
      * destruct (parse_fields s) as [[p|]|e] eqn:Ep.
        -- eexists. split; [reflexivity|].
           split; [discriminate|].
           split; [intros ? E; inversion E; subst; contradiction|].
           split.
           ++ intros s0 i c E Hi Hc Hd Ht. inversion E; subst s0.
              destruct (reading_needs_literal_characters
                          s p i c Hlen Ep Hi Hc); congruence.
           ++ split; [|exact Hascii].
              intros s0 e E Hr. inversion E; subst s0. congruence.
        -- exists self. repeat split; trivial; apply Hascii; assumption.
        -- eexists. split; [reflexivity|].
           split; [discriminate|].
           split; [intros ? E; inversion E; subst; contradiction|].
           split; [intros; apply Hlog|].
           split; [intros; apply Hlog|exact Hascii].
    + exists self. repeat split; trivial; apply Hascii; assumption.
  - eexists. split; [reflexivity|].
    split; [intros; apply Hlog|].
    split; [intros; discriminate|].
    split; [intros; discriminate|].
    split; [intros; discriminate|exact Hascii].
Qed.

End ForeignCharacters.

(** The letter g at position 6: nothing is published. *)
Lemma notification_never_raises_witness :
  exists self',
    _on_data_received 0 (list_byte_of_string "$A0000g83012280#") __init__
    = (Ok tt, self')
    /\ published (trace self') = [].
Proof.
  destruct (notification_never_raises
              0 (list_byte_of_string "$A0000g83012280#") __init__)
    as (self' & Hrun & _ & _ & Hfield & _).
  exists self'. split; [exact Hrun|].
  apply (Hfield (text "$A0000g83012280#") 6%nat 103);
    [reflexivity | lia | reflexivity | reflexivity | reflexivity].
Defined.

(** Two characters that are no hex digits and are read all the same: an
    ASCII blank at position 9 ([int(" 1f", 16)] is 31), and, with look-ups
    that know it, the Arabic-Indic digit three, U+0663, at position 6 (the
    sensor number is 4). *)
Lemma non_hex_characters_are_read :
  (nth_error (text "$A0000080 1f200#") 9 = Some 32
   /\ hex_value 32 = None
   /\ _on_data_received 0 (list_byte_of_string "$A0000080 1f200#") __init__
      = (Ok tt,
         recording __init__
                   (update_calls 0 {| pressure := PyInt 31;
                                      temperature := 202;
                                      battery := 100;
                                      sensor_no := 1 |})))
  /\ (decode_utf8 (list_byte_of_string "$A0000"
                   ++ [xd9; xa3]
                   ++ list_byte_of_string "8001f200#")
      = Ok (text "$A0000" ++ [1635] ++ text "8001f200#")
      /\ hex_value 1635 = None
      /\ @_on_data_received
           ucd_arabic_indic 0
           (list_byte_of_string "$A0000"
            ++ [xd9; xa3]
            ++ list_byte_of_string "8001f200#")
           __init__
         = (Ok tt,
            recording __init__
                      (update_calls 0 {| pressure := PyInt 31;
                                         temperature := 202;
                                         battery := 100;
                                         sensor_no := 4 |}))).
Proof. repeat split; reflexivity. Defined.

(* ===================================================================== *)
(** ** Where the transport calls go *)
(* ===================================================================== *)

(** X12: in every state that advertisements and notifications, delivered in
    any order to a new instance, lead to (the transport calls being taken to
    succeed), the notify attribute only holds a characteristic with the
    notify UUID and the write attribute one with the write UUID; every
    subscription made was on a characteristic with the notify UUID, and every
    write sent the command [$A0240138#], without response, to a
    characteristic with the write UUID. *)
Theorem transport_calls_are_well_addressed {ucd : UnicodeData}
        (inputs : list input) :
  session_ok (snd (dispatch inputs __init__)).
Proof.
  assert (Hgen : forall inputs self,
             session_ok self -> session_ok (snd (dispatch inputs self))).
  { clear inputs. induction inputs as [|[info|now data] inputs IH];
      intros self Hok.
    - exact Hok.
    - destruct (start_update_ok info self Hok) as (s1 & Hrun & Hok1).
      cbn [dispatch]. unfold bind. rewrite Hrun. apply IH, Hok1.
    - destruct (notification_depends_on_bytes now data)
        as (calls & Hrun & Hno).
      cbn [dispatch]. unfold bind. rewrite Hrun. apply IH.
      apply session_ok_recording; [exact Hok|].
      now apply untransported_well_addressed. }
  apply Hgen. unfold session_ok, __init__. cbn.
  repeat split; try discriminate. constructor.
Qed.
